(** * gwtony/logger: a shallow embedding of the logging facade

    The package keeps two process-wide variables (the configuration and the
    logger instance), builds the logger from zap and lumberjack, and offers
    leveled facade methods.  The repository holds two revisions of the one
    source file: [logger.go] and a later one with the formatted variants.
    Both are embedded here; where they differ the definitions branch on
    [Revision].

    Go's standard library (path/filepath, path, fmt, runtime, os) and the
    two collaborators (zap, lumberjack) are not part of the repository; the
    fragments the package calls are modelled in [Module Go] and [Module zap]
    after their documented behaviour on a Unix build. *)

From Stdlib Require Import ZArith List String Ascii Bool Lia.
Import ListNotations.
Open Scope string_scope.
Open Scope Z_scope.

(** ** Go standard library fragments *)

Module Go.

(** [errors.New] *)
Inductive error : Type :=
| errors_New (text : string).

Definition IsPathSeparator (c : ascii) : bool := Ascii.eqb c "/"%char.
Definition is_dot (c : ascii) : bool := Ascii.eqb c "."%char.

(** *** filepath.Base

    The path is held reversed while the trailing separators are stripped
    and the last element is collected. *)

Fixpoint strip_trailing (rpath : list ascii) : list ascii :=
  match rpath with
  | c :: r => if IsPathSeparator c then strip_trailing r else rpath
  | [] => []
  end.

Fixpoint last_element (rpath acc : list ascii) : list ascii :=
  match rpath with
  | [] => acc
  | c :: r => if IsPathSeparator c then acc else last_element r (c :: acc)
  end.

Definition filepath_Base (path : string) : string :=
  if String.eqb path "" then "."
  else
    let rpath := strip_trailing (rev (list_ascii_of_string path)) in
    match last_element rpath [] with
    | [] => "/"   (* it had only slashes *)
    | e => string_of_list_ascii e
    end.

(** *** filepath.Clean (and path.Clean, the same algorithm on Unix)

    [out] is the output buffer, reversed; [length out] is the write index
    [w] of the library's lazybuf. *)

Fixpoint backtrack (out : list ascii) (dotdot : nat) : list ascii :=
  match out with
  | [] => []
  | c :: r =>
      if andb (Nat.ltb dotdot (List.length r)) (negb (IsPathSeparator c))
      then backtrack r dotdot else r
  end.

(** copy one element: the bytes up to the next separator *)
Fixpoint copy_element (rest out : list ascii) : list ascii * list ascii :=
  match rest with
  | [] => ([], out)
  | c :: r => if IsPathSeparator c then (rest, out) else copy_element r (c :: out)
  end.

Definition at_end_or_sep (rest : list ascii) : bool :=
  match rest with
  | [] => true
  | c :: _ => IsPathSeparator c
  end.

Fixpoint clean_loop (fuel : nat) (rooted : bool) (rest out : list ascii)
    (dotdot : nat) : list ascii :=
  match fuel with
  | O => out
  | S fuel =>
      match rest with
      | [] => out
      | c :: r1 =>
          if IsPathSeparator c then
            (* empty path element *)
            clean_loop fuel rooted r1 out dotdot
          else if andb (is_dot c) (at_end_or_sep r1) then
            (* . element *)
            clean_loop fuel rooted r1 out dotdot
          else if andb (is_dot c)
                    (match r1 with
                     | c1 :: r2 => andb (is_dot c1) (at_end_or_sep r2)
                     | [] => false
                     end) then
            (* .. element: remove to last separator *)
            let r2 := tl r1 in
            if Nat.ltb dotdot (List.length out) then
              clean_loop fuel rooted r2 (backtrack out dotdot) dotdot
            else if negb rooted then
              let out1 :=
                match out with [] => out | _ => "/"%char :: out end in
              let out2 := "."%char :: "."%char :: out1 in
              clean_loop fuel rooted r2 out2 (List.length out2)
            else clean_loop fuel rooted r2 out dotdot
          else
            (* real path element: add slash if needed, copy element *)
            let w := List.length out in
            let out1 :=
              if orb (andb rooted (negb (Nat.eqb w 1)))
                     (andb (negb rooted) (negb (Nat.eqb w 0)))
              then "/"%char :: out else out in
            let '(rest', out2) := copy_element rest out1 in
            clean_loop fuel rooted rest' out2 dotdot
      end
  end.

Definition Clean (path : string) : string :=
  match list_ascii_of_string path with
  | [] => "."
  | (c :: r) as p =>
      let rooted := IsPathSeparator c in
      let out :=
        if rooted then clean_loop (List.length p) true r ["/"%char] 1
        else clean_loop (List.length p) false p [] 0 in
      match out with
      | [] => "."
      | _ => string_of_list_ascii (rev out)
      end
  end.

(** *** filepath.Dir: everything up to the last separator, cleaned *)

Fixpoint drop_to_separator (rpath : list ascii) : list ascii :=
  match rpath with
  | [] => []
  | c :: r => if IsPathSeparator c then rpath else drop_to_separator r
  end.

Definition filepath_Dir (path : string) : string :=
  Clean (string_of_list_ascii
           (rev (drop_to_separator (rev (list_ascii_of_string path))))).

(** *** path.Join, for the two elements the package joins *)

Definition path_Join (a b : string) : string :=
  if andb (String.eqb a "") (String.eqb b "") then ""
  else if String.eqb a "" then Clean b
  else if String.eqb b "" then Clean a
  else Clean (a ++ "/" ++ b).

(** *** fmt: decimal rendering of an int for the %d verb *)

Fixpoint digits (fuel : nat) (n : N) (acc : string) : string :=
  match fuel with
  | O => acc
  | S fuel =>
      let d := ascii_of_N (48 + N.modulo n 10) in
      let acc' := String d acc in
      if N.ltb n 10 then acc' else digits fuel (N.div n 10) acc'
  end.

Definition itoa (z : Z) : string :=
  let body := digits 20 (Z.abs_N z) "" in
  if z <? 0 then "-" ++ body else body.

(** *** fmt.Sprintf, for the verbs %s, %d, %v and %%

    An operand is a string, an int or an error (rendered by its Error
    method).  A missing operand and an operand of the wrong kind are
    rendered the way fmt does; other verbs are outside this fragment. *)

Inductive Arg : Type :=
| a_string (s : string)
| a_int (z : Z)
| a_error (e : error).

Definition Error (e : error) : string :=
  match e with errors_New text => text end.

Definition render (verb : ascii) (a : Arg) : string :=
  let bad kind shown :=
    "%!" ++ String verb ("(" ++ kind ++ "=" ++ shown ++ ")") in
  if orb (Ascii.eqb verb "s"%char) (Ascii.eqb verb "v"%char) then
    match a with
    | a_string s => s
    | a_error e => Error e
    | a_int z => if Ascii.eqb verb "v"%char then itoa z else bad "int" (itoa z)
    end
  else
    match a with
    | a_int z => if Ascii.eqb verb "d"%char then itoa z else bad "int" (itoa z)
    | a_string s => bad "string" s
    | a_error e => bad "*errors.errorString" ("&{" ++ Error e ++ "}")
    end.

Fixpoint format (t : list ascii) (args : list Arg) : string :=
  match t with
  | [] => ""
  | c :: t1 =>
      if Ascii.eqb c "%"%char then
        match t1 with
        | [] => "%!(NOVERB)"
        | v :: t2 =>
            if Ascii.eqb v "%"%char then String "%"%char (format t2 args)
            else
              match args with
              | [] => "%!" ++ String v "(MISSING)" ++ format t2 []
              | a :: args' => render v a ++ format t2 args'
              end
        end
      else String c (format t1 args)
  end.

Definition Sprintf (template : string) (args : list Arg) : string :=
  format (list_ascii_of_string template) args.

Definition newline : string := String (ascii_of_nat 10) "".

(** *** runtime.Caller

    The goroutine's call stack, innermost frame first.  [runtime_Caller skip]
    is the frame [skip] levels above the function that calls it; it is [None]
    (ok = false) when the stack is not that deep. *)

Record Frame : Type := mkFrame {
  frame_file : string;
  frame_func : string;   (* runtime.FuncForPC(pc).Name() *)
  frame_line : Z
}.

Definition runtime_Caller (skip : nat) (stack : list Frame) : option Frame :=
  nth_error stack skip.

End Go.


(** ** lumberjack and zap fragments *)

Module lumberjack.

(** [lumberjack.Logger]: the rotation writer's policy *)
Record Logger : Type := mkLogger {
  Filename : string;
  MaxSize : Z;       (* megabytes *)
  MaxAge : Z;        (* days *)
  MaxBackups : Z;    (* files *)
  LocalTime : bool
}.

End lumberjack.

Module zap.

(** [zapcore.Level] is an int8; the named severities *)
Definition Level : Type := Z.
Definition DebugLevel : Level := -1.
Definition InfoLevel : Level := 0.
Definition WarnLevel : Level := 1.
Definition ErrorLevel : Level := 2.
Definition DPanicLevel : Level := 3.
Definition PanicLevel : Level := 4.
Definition FatalLevel : Level := 5.

(** [zapcore.Field]: a key and a typed value *)
Inductive Field : Type :=
| Bool (key : string) (val : bool)
| Int (key : string) (val : Z)
| Int64 (key : string) (val : Z)
| String (key : string) (val : string)
| Duration (key : string) (nanos : Z)
| Error (err : option Go.error).

Inductive LevelEncoder : Type := LowercaseLevelEncoder.
Inductive TimeEncoder : Type :=
| EpochMillisTimeEncoder | EpochNanosTimeEncoder | ISO8601TimeEncoder.
Inductive DurationEncoder : Type := NanosDurationEncoder.

Record EncoderConfig : Type := mkEncoderConfig {
  TimeKey : string;
  LevelKey : string;
  NameKey : string;
  CallerKey : string;
  MessageKey : string;
  StacktraceKey : string;
  EncodeLevel : LevelEncoder;
  EncodeTime : TimeEncoder;
  EncodeDuration : DurationEncoder
}.

Inductive Encoder : Type :=
| NewConsoleEncoder (cfg : EncoderConfig)
| NewJSONEncoder (cfg : EncoderConfig).

Definition is_json (e : Encoder) : bool :=
  match e with NewJSONEncoder _ => true | NewConsoleEncoder _ => false end.

(** [zapcore.WriteSyncer] is an interface; a value of it is held as an
    [option], [None] being the nil interface. *)
#[warnings="-register-all"] Inductive WriteSyncer : Type :=
| os_Stdout
| AddSync (l : lumberjack.Logger)
| multiWriteSyncer (ws : list (option WriteSyncer)).

(** [zapcore.NewMultiWriteSyncer] *)
Definition NewMultiWriteSyncer (ws : list (option WriteSyncer))
    : option WriteSyncer :=
  match ws with
  | [w] => w
  | _ => Some (multiWriteSyncer ws)
  end.

(** [zap.New (zapcore.NewCore enc out (zap.NewAtomicLevelAt lvl))] *)
Record Logger : Type := mkLogger {
  core_enc : Encoder;
  core_out : option WriteSyncer;
  core_level : Level
}.

(** One encoded entry as handed to the sink (the bytes of
    [Encoder.EncodeEntry]; the time stamp is left out). *)
Record Line : Type := mkLine {
  line_enc : Encoder;
  line_level : Level;
  line_msg : string;
  line_fields : list Field
}.

Inductive Output : Type :=
| wrote (l : Line)        (* a Write of a WriteSyncer *)
| printed (s : string).   (* fmt.Printf *)

(** The process around the package: the two standard streams, what the
    rotation writers were handed, the directories, the directories whose
    creation fails (with the error), and the target of the standard
    library's log package. *)
Record Process : Type := mkProcess {
  stdout : list Output;
  stderr : list Output;
  rotated : list (lumberjack.Logger * Line);
  dirs : list string;
  mkdir_errors : list (string * Go.error);
  stdlog : option Logger
}.

Definition put_stdout (o : Output) (p : Process) : Process :=
  mkProcess (stdout p ++ [o]) (stderr p) (rotated p) (dirs p)
            (mkdir_errors p) (stdlog p).

Definition put_rotated (l : lumberjack.Logger) (ln : Line) (p : Process)
    : Process :=
  mkProcess (stdout p) (stderr p) (rotated p ++ [(l, ln)]) (dirs p)
            (mkdir_errors p) (stdlog p).

Definition add_dir (d : string) (p : Process) : Process :=
  mkProcess (stdout p) (stderr p) (rotated p)
            (if existsb (String.eqb d) (dirs p) then dirs p else dirs p ++ [d])
            (mkdir_errors p) (stdlog p).

(** [zap.RedirectStdLog] *)
Definition RedirectStdLog (l : option Logger) (p : Process) : Process :=
  mkProcess (stdout p) (stderr p) (rotated p) (dirs p) (mkdir_errors p) l.

Fixpoint lookup_error (d : string) (es : list (string * Go.error))
    : option Go.error :=
  match es with
  | [] => None
  | (d', e) :: r => if String.eqb d d' then Some e else lookup_error d r
  end.

(** [os.MkdirAll] *)
Definition os_MkdirAll (d : string) (perm : Z) (p : Process)
    : option Go.error * Process :=
  match lookup_error d (mkdir_errors p) with
  | Some e => (Some e, p)
  | None => (None, add_dir d p)
  end.

(** [fmt.Printf] writes to standard output *)
Definition fmt_Printf (template : string) (args : list Go.Arg) (p : Process)
    : Process :=
  put_stdout (printed (Go.Sprintf template args)) p.

(** How a call ends: it returns, it panics with a value, the process
    exits, or a nil pointer or nil interface is dereferenced (a run-time
    panic). *)
Inductive Outcome : Type :=
| returns
| panics (v : string)
| exits (code : Z)
| nil_dereference.

(** [WriteSyncer.Write]; a multi-writer writes to its members in order,
    and a nil member is dereferenced when its turn comes. *)
Fixpoint Write (ws : WriteSyncer) (ln : Line) (p : Process)
    : Outcome * Process :=
  match ws with
  | os_Stdout => (returns, put_stdout (wrote ln) p)
  | AddSync l => (returns, put_rotated l ln p)
  | multiWriteSyncer members =>
      (fix each (ms : list (option WriteSyncer)) (p : Process)
         : Outcome * Process :=
         match ms with
         | [] => (returns, p)
         | None :: _ => (nil_dereference, p)
         | Some m :: rest =>
             match Write m ln p with
             | (returns, p1) => each rest p1
             | stopped => stopped
             end
         end) members p
  end.

Definition Enabled (l : Logger) (lvl : Level) : bool := core_level l <=? lvl.

(** what [CheckedEntry.Write] does after the cores were written *)
Definition after_write (lvl : Level) (msg : string) : Outcome :=
  if lvl =? PanicLevel then panics msg
  else if lvl =? FatalLevel then exits 1
  else returns.

(** [Logger.Debug], [Logger.Info], ... at severity [lvl]: a record below
    DPanic is dropped when the level is disabled; otherwise it is written
    to the core when enabled, and Panic and Fatal then take their action. *)
Definition log (lvl : Level) (msg : string) (fields : list Field)
    (l : option Logger) (p : Process) : Outcome * Process :=
  match l with
  | None => (nil_dereference, p)
  | Some lg =>
      if andb (lvl <? DPanicLevel) (negb (Enabled lg lvl)) then (returns, p)
      else
        let ln := mkLine (core_enc lg) lvl msg fields in
        let written :=
          if Enabled lg lvl then
            match core_out lg with
            | None => (nil_dereference, p)
            | Some ws => Write ws ln p
            end
          else (returns, p) in
        match written with
        | (returns, p1) => (after_write lvl msg, p1)
        | stopped => stopped
        end
  end.

(** [zap.SugaredLogger]: a wrapper of its base logger *)
Record SugaredLogger : Type := mkSugared { base : Logger }.

Definition Sugar (l : Logger) : SugaredLogger := mkSugared l.

(** [SugaredLogger.Infof], ...: the message is the rendered template *)
Definition logf (lvl : Level) (template : string) (args : list Go.Arg)
    (s : option SugaredLogger) (p : Process) : Outcome * Process :=
  match s with
  | None => (nil_dereference, p)
  | Some sg => log lvl (Go.Sprintf template args) [] (Some (base sg)) p
  end.

End zap.

(** ** The package *)

Module logger.

(** The two revisions of the source file held by the repository. *)
Inductive Revision : Type :=
| logger_go    (* logger.go *)
| part_000.    (* the revision with the formatted variants *)

(** [type Log struct {}] *)
Inductive Log : Type := mkLog.

(** Configuration for logging *)
Record Config : Type := mkConfig {
  EncodeLogsAsJson : bool;
  FileLoggingEnabled : bool;
  Directory : string;
  Filename : string;
  MaxSize : Z;
  MaxBackups : Z;
  MaxAge : Z;
  StackStrace : bool;
  LogLevel : zap.Level
}.

(** the zero value of [Config] *)
Definition zero_Config : Config :=
  mkConfig false false "" "" 0 0 0 false 0.

(** The package-level variables, and the process they live in. *)
Record World : Type := mkWorld {
  proc : zap.Process;
  DefaultZapLogger : option zap.Logger;
  DefaultZapSugaredLogger : option zap.SugaredLogger;   (* part_000 only *)
  DefaultLoggerConfig : Config
}.

Definition set_proc (p : zap.Process) (w : World) : World :=
  mkWorld p (DefaultZapLogger w) (DefaultZapSugaredLogger w)
          (DefaultLoggerConfig w).

Definition set_DefaultZapLogger (l : option zap.Logger) (w : World) : World :=
  mkWorld (proc w) l (DefaultZapSugaredLogger w) (DefaultLoggerConfig w).

Definition set_DefaultZapSugaredLogger (s : option zap.SugaredLogger)
    (w : World) : World :=
  mkWorld (proc w) (DefaultZapLogger w) s (DefaultLoggerConfig w).

Definition set_DefaultLoggerConfig (c : Config) (w : World) : World :=
  mkWorld (proc w) (DefaultZapLogger w) (DefaultZapSugaredLogger w) c.

Definition with_LogLevel (l : zap.Level) (c : Config) : Config :=
  mkConfig (EncodeLogsAsJson c) (FileLoggingEnabled c) (Directory c)
           (Filename c) (MaxSize c) (MaxBackups c) (MaxAge c)
           (StackStrace c) l.

(** [DefaultLoggerConfig.LogLevel = l] *)
Definition set_LogLevel (l : zap.Level) (w : World) : World :=
  set_DefaultLoggerConfig (with_LogLevel l (DefaultLoggerConfig w)) w.

(** The field constructors *)
Definition Bool (name : string) (value : bool) : zap.Field :=
  zap.Bool name value.
Definition Int (name : string) (value : Z) : zap.Field := zap.Int name value.
Definition String (name : string) (value : string) : zap.Field :=
  zap.String name value.
Definition Int64 (name : string) (value : Z) : zap.Field :=
  zap.Int64 name value.
Definition Duration (name : string) (value : Z) : zap.Field :=
  zap.Duration name value.
(** [Err] in logger.go, [Error] in the other revision *)
Definition Err (err : option Go.error) : zap.Field := zap.Error err.

Section revision.

Variable rev : Revision.

Definition encCfg : zap.EncoderConfig :=
  zap.mkEncoderConfig
    (match rev with logger_go => "timestamp" | part_000 => "time" end)
    "level" "logger" "caller" "msg" "stacktrace"
    zap.LowercaseLevelEncoder
    (match rev with
     | logger_go => zap.EpochMillisTimeEncoder
     | part_000 => zap.ISO8601TimeEncoder
     end)
    zap.NanosDurationEncoder.

Definition newZapLogger (encodeAsJSON : bool)
    (output : option zap.WriteSyncer) (w : World) : option zap.Logger :=
  let encoder :=
    if encodeAsJSON then zap.NewJSONEncoder encCfg
    else zap.NewConsoleEncoder encCfg in
  Some (zap.mkLogger encoder output (LogLevel (DefaultLoggerConfig w))).

Definition SetLogLevel (level : string) (w : World)
    : option Go.error * World :=
  if String.eqb level "debug" then (None, set_LogLevel zap.DebugLevel w)
  else if String.eqb level "info" then (None, set_LogLevel zap.InfoLevel w)
  else if String.eqb level "warn" then (None, set_LogLevel zap.WarnLevel w)
  else if String.eqb level "error" then (None, set_LogLevel zap.ErrorLevel w)
  else (Some (Go.errors_New "Bad log level"), w).

Definition newRollingFile (config : Config) (w : World)
    : option zap.WriteSyncer * World :=
  match zap.os_MkdirAll (Directory config) 0 (proc w) with
  | (Some err, p) =>
      let p' :=
        zap.fmt_Printf
          ("Failed create log directory in %s, error: %s" ++ Go.newline)
          [Go.a_string (Directory config); Go.a_error err] p in
      (None, set_proc p' w)
  | (None, p) =>
      (Some (zap.AddSync
               (lumberjack.mkLogger
                  (Go.path_Join (Directory config) (Filename config))
                  (MaxSize config) (MaxAge config) (MaxBackups config)
                  (match rev with logger_go => false | part_000 => true end))),
       set_proc p w)
  end.

(** Configure sets up the logging framework *)
Definition Configure (config : Config) (w : World) : World :=
  let writers := [Some zap.os_Stdout] in
  let '(writers, w) :=
    if FileLoggingEnabled config then
      let '(rf, w1) := newRollingFile config w in ((writers ++ [rf])%list, w1)
    else (writers, w) in
  let w :=
    set_DefaultZapLogger
      (newZapLogger (EncodeLogsAsJson config)
                    (zap.NewMultiWriteSyncer writers) w) w in
  let w := set_proc (zap.RedirectStdLog (DefaultZapLogger w) (proc w)) w in
  let w :=
    match rev with
    | logger_go => w
    | part_000 =>
        set_DefaultZapSugaredLogger
          (option_map zap.Sugar (DefaultZapLogger w)) w
    end in
  set_DefaultLoggerConfig config w.

Definition Init (file level : string) (size backup : Z) (stackstrace : bool)
    (w : World) : (Log * option Go.error) * World :=
  let log := mkLog in
  let name := Go.filepath_Base file in
  if String.eqb name "" then ((log, Some (Go.errors_New "Bad file")), w)
  else
    let dir := Go.filepath_Dir file in
    let dir := if String.eqb dir "" then "./" else dir in
    if orb (size <? 0) (backup <? 0) then
      ((log, Some (Go.errors_New "Bad size or backup")), w)
    else
      let config :=
        mkConfig true true dir name size backup 0 stackstrace 0 in
      let level := if String.eqb level "" then "error" else level in
      match SetLogLevel level w with
      | (Some err, w) => ((log, Some err), w)
      | (None, w) => ((log, None), Configure config w)
      end.

(** The frames of the package's own functions while [Stack] runs: the
    line of [runtime.Caller(2)] in [Stack] and of the call of [Stack] in
    [Debug]. *)
Definition frame_of_Stack : Go.Frame :=
  Go.mkFrame "logger.go" "github.com/gwtony/logger.Stack"
             (match rev with logger_go => 136 | part_000 => 107 end).

Definition frame_of_Debug : Go.Frame :=
  Go.mkFrame "logger.go" "github.com/gwtony/logger.(*Log).Debug"
             (match rev with logger_go => 83 | part_000 => 62 end).

(** [Stack]; [callers] is the stack of the function that calls it *)
Definition Stack (callers : list Go.Frame) : zap.Field :=
  let src :=
    match Go.runtime_Caller 2 (frame_of_Stack :: callers) with
    | Some f =>
        Go.Sprintf "%s:%s:%d"
          [Go.a_string (Go.frame_file f); Go.a_string (Go.frame_func f);
           Go.a_int (Go.frame_line f)]
    | None => ""
    end in
  zap.String "stacktrace" src.

(** a call on [DefaultZapLogger], and one on [DefaultZapSugaredLogger] *)
Definition on_logger (lvl : zap.Level) (msg : string)
    (fields : list zap.Field) (w : World) : zap.Outcome * World :=
  let '(o, p) := zap.log lvl msg fields (DefaultZapLogger w) (proc w) in
  (o, set_proc p w).

Definition on_sugared (lvl : zap.Level) (msg : string)
    (args : list Go.Arg) (w : World) : zap.Outcome * World :=
  let '(o, p) := zap.logf lvl msg args (DefaultZapSugaredLogger w) (proc w) in
  (o, set_proc p w).

(** The facade.  [Debug] takes the stack of its caller. *)
Definition Debug (msg : string) (fields : list zap.Field)
    (callers : list Go.Frame) (w : World) : zap.Outcome * World :=
  if StackStrace (DefaultLoggerConfig w) then
    let fields := (fields ++ [Stack (frame_of_Debug :: callers)])%list in
    on_logger zap.DebugLevel msg fields w
  else
    on_logger zap.DebugLevel msg fields w.

Definition Info (msg : string) (fields : list zap.Field) (w : World) :=
  on_logger zap.InfoLevel msg fields w.
Definition Warn (msg : string) (fields : list zap.Field) (w : World) :=
  on_logger zap.WarnLevel msg fields w.
Definition Error (msg : string) (fields : list zap.Field) (w : World) :=
  on_logger zap.ErrorLevel msg fields w.
Definition Panic (msg : string) (fields : list zap.Field) (w : World) :=
  on_logger zap.PanicLevel msg fields w.
Definition Fatal (msg : string) (fields : list zap.Field) (w : World) :=
  on_logger zap.FatalLevel msg fields w.

(** The formatted variants (the later revision only) *)
Definition Infof (msg : string) (args : list Go.Arg) (w : World) :=
  on_sugared zap.InfoLevel msg args w.
Definition Warnf (msg : string) (args : list Go.Arg) (w : World) :=
  on_sugared zap.WarnLevel msg args w.
Definition Errorf (msg : string) (args : list Go.Arg) (w : World) :=
  on_sugared zap.ErrorLevel msg args w.
Definition Panicf (msg : string) (args : list Go.Arg) (w : World) :=
  on_sugared zap.PanicLevel msg args w.
Definition Fatalf (msg : string) (args : list Go.Arg) (w : World) :=
  on_sugared zap.FatalLevel msg args w.

(** Package initialisation in process [p]: [DefaultLoggerConfig] has no
    initialiser and holds the zero value; logger.go initialises
    [DefaultZapLogger] with [newZapLogger(false, os.Stdout)], the other
    revision declares both logger variables without a value (nil). *)
Definition start (p : zap.Process) : World :=
  let w := mkWorld p None None zero_Config in
  match rev with
  | logger_go =>
      set_DefaultZapLogger (newZapLogger false (Some zap.os_Stdout) w) w
  | part_000 => w
  end.

End revision.

End logger.

(** ** Vocabulary of the properties *)

Module Props.

Import logger.

(** the sink of the published logger, and its members *)
Definition published_sink (w : World) : option zap.WriteSyncer :=
  match DefaultZapLogger w with
  | Some lg => zap.core_out lg
  | None => None
  end.

Definition sink_members (o : option zap.WriteSyncer)
    : list (option zap.WriteSyncer) :=
  match o with
  | Some (zap.multiWriteSyncer ws) => ws
  | other => [other]
  end.

Definition is_stdout (m : option zap.WriteSyncer) : bool :=
  match m with Some zap.os_Stdout => true | _ => false end.

Definition is_rotation_writer (m : option zap.WriteSyncer) : bool :=
  match m with Some (zap.AddSync _) => true | _ => false end.

(** creating directory [d] fails in the process of [w] *)
Definition cannot_create (d : string) (w : World) : bool :=
  match zap.lookup_error d (zap.mkdir_errors (proc w)) with
  | Some _ => true
  | None => false
  end.

(** the world differs from [w0] by one more item on standard error *)
Definition reported_on_stderr_only (w0 w : World) : Prop :=
  (exists o, zap.stderr (proc w) = (zap.stderr (proc w0) ++ [o])%list)
  /\ zap.stdout (proc w) = zap.stdout (proc w0).

(** every write through the sink returns and reaches no rotation writer *)
Definition file_sink_drops_output (w : World) : Prop :=
  forall sink ln,
    published_sink w = Some sink ->
    fst (zap.Write sink ln (proc w)) = zap.returns
    /\ zap.rotated (snd (zap.Write sink ln (proc w))) = zap.rotated (proc w).

(** The directory-failure behaviour as the specification words it. *)
Definition stderr_report_and_noop_sink (rev : Revision) (config : Config)
    (w : World) : Prop :=
  FileLoggingEnabled config = true ->
  cannot_create (Directory config) w = true ->
  reported_on_stderr_only w (Configure rev config w)
  /\ file_sink_drops_output (Configure rev config w).

(** The sink as the specification words it: stdout is a member, and a
    rotation writer is a member exactly when file logging is enabled. *)
Definition sink_as_specified (rev : Revision) (config : Config) (w : World)
    : Prop :=
  let sink := sink_members (published_sink (Configure rev config w)) in
  existsb is_stdout sink = true
  /\ (existsb is_rotation_writer sink = true
      <-> FileLoggingEnabled config = true).

(** The writers [Configure] assembles and the world after the rotation
    writer was asked for. *)
Definition assembled (rev : Revision) (config : Config) (w : World)
    : list (option zap.WriteSyncer) * World :=
  if FileLoggingEnabled config then
    ([Some zap.os_Stdout; fst (newRollingFile rev config w)],
     snd (newRollingFile rev config w))
  else ([Some zap.os_Stdout], w).

(** the location text of the frame that called the facade method *)
Definition call_site (callers : list Go.Frame) : string :=
  match callers with
  | f :: _ =>
      Go.frame_file f ++ ":" ++ Go.frame_func f ++ ":"
        ++ Go.itoa (Go.frame_line f)
  | [] => ""
  end.

(** a process in which the directory /nope cannot be created, and a
    configuration that logs to a file there *)
Definition locked_process : zap.Process :=
  zap.mkProcess [] [] [] []
    [("/nope", Go.errors_New "mkdir /nope: permission denied")] None.

Definition locked_config : Config :=
  mkConfig true true "/nope" "app.log" 10 3 0 false 0.

End Props.

(** ** Programs that call the package *)

Module Runs.

Import logger.

(** the severity a level name stands for in [Init] *)
Definition severity (name : string) : option zap.Level :=
  if String.eqb name "" then Some zap.ErrorLevel
  else if String.eqb name "debug" then Some zap.DebugLevel
  else if String.eqb name "info" then Some zap.InfoLevel
  else if String.eqb name "warn" then Some zap.WarnLevel
  else if String.eqb name "error" then Some zap.ErrorLevel
  else None.

(** the path has no separator in it *)
Definition no_separator (path : string) : bool :=
  forallb (fun c => negb (Go.IsPathSeparator c)) (list_ascii_of_string path).

(** the configuration [Init] builds and passes to [Configure] *)
Definition Init_config (file : string) (size backup : Z)
    (stackstrace : bool) : Config :=
  mkConfig true true (Go.filepath_Dir file) (Go.filepath_Base file)
           size backup 0 stackstrace 0.

(** the rotation writer [newRollingFile] builds for a configuration *)
Definition rotation_writer (rev : Revision) (config : Config)
    : lumberjack.Logger :=
  lumberjack.mkLogger
    (Go.path_Join (Directory config) (Filename config))
    (MaxSize config) (MaxAge config) (MaxBackups config)
    (match rev with logger_go => false | part_000 => true end).

(** One call of an exported function of the package.  The formatted
    variants exist in the later revision only. *)
Inductive Call : Type :=
| call_SetLogLevel (level : string)
| call_Configure (config : Config)
| call_Init (file level : string) (size backup : Z) (stackstrace : bool)
| call_Debug (msg : string) (fields : list zap.Field)
             (callers : list Go.Frame)
| call_Info (msg : string) (fields : list zap.Field)
| call_Warn (msg : string) (fields : list zap.Field)
| call_Error (msg : string) (fields : list zap.Field)
| call_Panic (msg : string) (fields : list zap.Field)
| call_Fatal (msg : string) (fields : list zap.Field)
| call_Infof (msg : string) (args : list Go.Arg)
| call_Warnf (msg : string) (args : list Go.Arg)
| call_Errorf (msg : string) (args : list Go.Arg)
| call_Panicf (msg : string) (args : list Go.Arg)
| call_Fatalf (msg : string) (args : list Go.Arg).

Definition call (rev : Revision) (c : Call) (w : World)
    : zap.Outcome * World :=
  match c with
  | call_SetLogLevel level => (zap.returns, snd (SetLogLevel level w))
  | call_Configure config => (zap.returns, Configure rev config w)
  | call_Init file level size backup stackstrace =>
      (zap.returns, snd (Init rev file level size backup stackstrace w))
  | call_Debug msg fields callers => Debug rev msg fields callers w
  | call_Info msg fields => Info msg fields w
  | call_Warn msg fields => Warn msg fields w
  | call_Error msg fields => Error msg fields w
  | call_Panic msg fields => Panic msg fields w
  | call_Fatal msg fields => Fatal msg fields w
  | call_Infof msg args => Infof msg args w
  | call_Warnf msg args => Warnf msg args w
  | call_Errorf msg args => Errorf msg args w
  | call_Panicf msg args => Panicf msg args w
  | call_Fatalf msg args => Fatalf msg args w
  end.

(** A program is a sequence of calls.  It ends when a call makes the
    process exit; after a panic the caller may recover and go on. *)
Fixpoint run (rev : Revision) (cs : list Call) (w : World) : World :=
  match cs with
  | [] => w
  | c :: rest =>
      match call rev c w with
      | (zap.exits _, w1) => w1
      | (_, w1) => run rev rest w1
      end
  end.

(** [l'] is [l] with items added at its end *)
Definition extends {A : Type} (l l' : list A) : Prop :=
  exists more, l' = (l ++ more)%list.

(** The process only gained output: standard error and the failing
    directories are the same, standard output and what the rotation
    writers received were only appended to. *)
Definition only_gained_output (p p' : zap.Process) : Prop :=
  zap.stderr p' = zap.stderr p
  /\ zap.mkdir_errors p' = zap.mkdir_errors p
  /\ extends (zap.stdout p) (zap.stdout p')
  /\ extends (zap.rotated p) (zap.rotated p').

(** the encoder is one of the two over the fixed schema of the revision *)
Definition fixed_schema (rev : Revision) (e : zap.Encoder) : Prop :=
  e = zap.NewConsoleEncoder (encCfg rev) \/ e = zap.NewJSONEncoder (encCfg rev).

(** the sink is standard output alone, or standard output followed by
    one more member: a rotation writer or nil *)
Definition stdout_first (o : option zap.WriteSyncer) : Prop :=
  o = Some zap.os_Stdout
  \/ o = Some (zap.multiWriteSyncer [Some zap.os_Stdout; None])
  \/ exists l,
      o = Some (zap.multiWriteSyncer
                  [Some zap.os_Stdout; Some (zap.AddSync l)]).

(** the published logger, if any, writes with the fixed schema to such a
    sink *)
Definition logger_in_shape (rev : Revision) (w : World) : Prop :=
  forall lg,
    DefaultZapLogger w = Some lg ->
    fixed_schema rev (zap.core_enc lg) /\ stdout_first (zap.core_out lg).

(** the sugared logger wraps the published logger *)
Definition sugared_in_step (w : World) : Prop :=
  DefaultZapSugaredLogger w = option_map zap.Sugar (DefaultZapLogger w).

(** What every state of the package satisfies: the published logger is in
    shape; in logger.go there always is one; in the later revision the
    sugared logger goes with it. *)
Definition package_invariant (rev : Revision) (w : World) : Prop :=
  logger_in_shape rev w
  /\ (rev = logger_go -> DefaultZapLogger w <> None)
  /\ (rev = part_000 -> sugared_in_step w).

(** Induction over a sink and the members of its multi-writers. *)
Section sink_induction.

Variable P : zap.WriteSyncer -> Prop.
Hypothesis P_stdout : P zap.os_Stdout.
Hypothesis P_rotation : forall l, P (zap.AddSync l).
Hypothesis P_multi :
  forall ms,
    Forall (fun m => match m with Some x => P x | None => True end) ms ->
    P (zap.multiWriteSyncer ms).

Fixpoint sink_ind (ws : zap.WriteSyncer) : P ws :=
  match ws with
  | zap.os_Stdout => P_stdout
  | zap.AddSync l => P_rotation l
  | zap.multiWriteSyncer ms =>
      P_multi ms
        ((fix members (ms : list (option zap.WriteSyncer))
            : Forall (fun m => match m with Some x => P x | None => True end)
                     ms :=
            match ms with
            | [] => Forall_nil _
            | m :: rest =>
                Forall_cons m
                  (match m as m0
                         return match m0 with Some x => P x | None => True end
                   with
                   | Some x => sink_ind x
                   | None => I
                   end)
                  (members rest)
            end) ms)
  end.

End sink_induction.

End Runs.

(** ** The library fragments on the examples of their documentation *)

Example Base_examples :
  map Go.filepath_Base
      ["/foo/bar/baz.js"; "/foo/bar/baz"; "/foo/bar/baz/"; "dev.txt";
       "../todo.txt"; ".."; "."; "/"; ""; "///"; "a//"]
  = ["baz.js"; "baz"; "baz"; "dev.txt"; "todo.txt"; ".."; "."; "/"; ".";
     "/"; "a"].
Proof. reflexivity. Qed.

Example Dir_examples :
  map Go.filepath_Dir
      ["/foo/bar/baz.js"; "/foo/bar/baz"; "/foo/bar/baz/"; "/dirty//path///";
       "dev.txt"; "../todo.txt"; ".."; "."; "/"; ""; "a/b/../c/x"; "/../x/y";
       "../../a/b"; "a/../../b/c"]
  = ["/foo/bar"; "/foo/bar"; "/foo/bar/baz"; "/dirty/path"; "."; ".."; ".";
     "."; "/"; "."; "a/c"; "/x"; "../../a"; "../b"].
Proof. reflexivity. Qed.

Example Join_examples :
  [Go.path_Join "/var/log" "app.log"; Go.path_Join "." "app.log";
   Go.path_Join "." "."; Go.path_Join "a/" "/b"; Go.path_Join "" "x"]
  = ["/var/log/app.log"; "app.log"; "."; "a/b"; "x"].
Proof. reflexivity. Qed.

Example itoa_examples :
  map Go.itoa [0; 7; 42; 136; -15; 1000] = ["0"; "7"; "42"; "136"; "-15"; "1000"].
Proof. reflexivity. Qed.

Example Sprintf_examples :
  [Go.Sprintf "%s:%s:%d" [Go.a_string "main.go"; Go.a_string "main.run"; Go.a_int 12];
   Go.Sprintf "port %d of %v (100%%)" [Go.a_int 8080; Go.a_string "srv"];
   Go.Sprintf "%s and %s" [Go.a_string "one"]]
  = ["main.go:main.run:12"; "port 8080 of srv (100%)"; "one and %!s(MISSING)"].
Proof. reflexivity. Qed.

(** ** Properties of the package *)

Module Facts.

Import logger Props.

(** *** Path splitting *)

Lemma string_of_list_ascii_nonempty (c : ascii) (l : list ascii) :
  string_of_list_ascii (c :: l) <> "".
Proof. simpl. discriminate. Qed.

(** [filepath.Base] never returns the empty string. *)
Lemma filepath_Base_nonempty (path : string) : Go.filepath_Base path <> "".
Proof.
  unfold Go.filepath_Base.
  destruct (String.eqb path ""); [discriminate|].
  destruct (Go.last_element _ _) as [|c l].
  - discriminate.
  - apply string_of_list_ascii_nonempty.
Qed.

Lemma Base_eqb_empty (path : string) :
  String.eqb (Go.filepath_Base path) "" = false.
Proof. apply String.eqb_neq, filepath_Base_nonempty. Qed.

(** *** SetLogLevel *)

Lemma SetLogLevel_cases (level : string) (w : World) :
  (level = "debug" /\ SetLogLevel level w = (None, set_LogLevel zap.DebugLevel w))
  \/ (level = "info" /\ SetLogLevel level w = (None, set_LogLevel zap.InfoLevel w))
  \/ (level = "warn" /\ SetLogLevel level w = (None, set_LogLevel zap.WarnLevel w))
  \/ (level = "error" /\ SetLogLevel level w = (None, set_LogLevel zap.ErrorLevel w))
  \/ (~ In level ["debug"; "info"; "warn"; "error"]
      /\ SetLogLevel level w = (Some (Go.errors_New "Bad log level"), w)).
Proof.
  unfold SetLogLevel.
  destruct (String.eqb_spec level "debug") as [->|Hd]; [now left|].
  destruct (String.eqb_spec level "info") as [->|Hi]; [now right; left|].
  destruct (String.eqb_spec level "warn") as [->|Hw]; [now right; right; left|].
  destruct (String.eqb_spec level "error") as [->|He];
    [now right; right; right; left|].
  right; right; right; right. split; [|reflexivity].
  simpl. intuition congruence.
Qed.

Lemma SetLogLevel_error_keeps_world (level : string) (w w' : World)
    (e : Go.error) :
  SetLogLevel level w = (Some e, w') -> w' = w.
Proof.
  destruct (SetLogLevel_cases level w)
    as [[_ H]|[[_ H]|[[_ H]|[[_ H]|[_ H]]]]];
    rewrite H; intros E; inversion E; reflexivity.
Qed.

(** *** Configure *)

Lemma newRollingFile_config (rev : Revision) (config : Config) (w : World) :
  DefaultLoggerConfig (snd (newRollingFile rev config w))
  = DefaultLoggerConfig w.
Proof.
  unfold newRollingFile.
  destruct (zap.os_MkdirAll _ _ _) as [[e|] p]; reflexivity.
Qed.

Lemma assembled_config (rev : Revision) (config : Config) (w : World) :
  DefaultLoggerConfig (snd (assembled rev config w)) = DefaultLoggerConfig w.
Proof.
  unfold assembled. destruct (FileLoggingEnabled config); simpl.
  - apply newRollingFile_config.
  - reflexivity.
Qed.

Lemma Configure_logger (rev : Revision) (config : Config) (w : World) :
  DefaultZapLogger (Configure rev config w)
  = newZapLogger rev (EncodeLogsAsJson config)
      (zap.NewMultiWriteSyncer (fst (assembled rev config w))) w.
Proof.
  unfold Configure, assembled.
  destruct (FileLoggingEnabled config).
  - pose proof (newRollingFile_config rev config w) as Hc.
    destruct (newRollingFile rev config w) as [rf w1]. simpl in *.
    unfold newZapLogger. rewrite Hc. destruct rev; reflexivity.
  - destruct rev; reflexivity.
Qed.

Lemma Configure_config (rev : Revision) (config : Config) (w : World) :
  DefaultLoggerConfig (Configure rev config w) = config.
Proof.
  unfold Configure.
  destruct (FileLoggingEnabled config);
    [destruct (newRollingFile rev config w) as [rf w1]|];
    destruct rev; reflexivity.
Qed.

Lemma Configure_proc (rev : Revision) (config : Config) (w : World) :
  proc (Configure rev config w)
  = zap.RedirectStdLog (DefaultZapLogger (Configure rev config w))
      (proc (snd (assembled rev config w))).
Proof.
  unfold Configure, assembled.
  destruct (FileLoggingEnabled config);
    [destruct (newRollingFile rev config w) as [rf w1]|];
    destruct rev; reflexivity.
Qed.

(** What [newRollingFile] returns: nil and a line on standard output when
    the directory cannot be created, a rotation writer otherwise. *)
Lemma newRollingFile_cases (rev : Revision) (config : Config) (w : World) :
  (exists e,
      zap.lookup_error (Directory config) (zap.mkdir_errors (proc w)) = Some e
      /\ newRollingFile rev config w
         = (None,
            set_proc
              (zap.put_stdout
                 (zap.printed
                    ("Failed create log directory in " ++ Directory config
                       ++ ", error: " ++ Go.Error e ++ Go.newline))
                 (proc w)) w))
  \/ (zap.lookup_error (Directory config) (zap.mkdir_errors (proc w)) = None
      /\ exists l,
          newRollingFile rev config w
          = (Some (zap.AddSync l),
             set_proc (zap.add_dir (Directory config) (proc w)) w)).
Proof.
  unfold newRollingFile, zap.os_MkdirAll.
  destruct (zap.lookup_error _ _) as [e|].
  - left. exists e. split; [reflexivity|].
    unfold zap.fmt_Printf, Go.Sprintf. cbn. reflexivity.
  - right. split; [reflexivity|]. eexists. reflexivity.
Qed.

(** *** Emission through the published logger *)

(** A record at an enabled level is appended to standard output, whatever
    the second member of the sink is. *)
Lemma emitted_reaches_stdout (rev : Revision) (config : Config) (w : World)
    (lvl : zap.Level) (msg : string) (fields : list zap.Field) :
  LogLevel (DefaultLoggerConfig w) <= lvl ->
  exists lg,
    DefaultZapLogger (Configure rev config w) = Some lg
    /\ zap.stdout (proc (snd (on_logger lvl msg fields (Configure rev config w))))
       = (zap.stdout (proc (Configure rev config w))
            ++ [zap.wrote (zap.mkLine (zap.core_enc lg) lvl msg fields)])%list.
Proof.
  intros Hle.
  pose proof (Configure_logger rev config w) as Hlg.
  unfold newZapLogger in Hlg.
  eexists. split; [exact Hlg|].
  unfold on_logger, zap.log. rewrite Hlg.
  unfold zap.Enabled. cbn [zap.core_level zap.core_out zap.core_enc].
  apply Z.leb_le in Hle. rewrite Hle.
  rewrite Bool.andb_false_r.
  unfold assembled.
  destruct (FileLoggingEnabled config); cbn [fst zap.NewMultiWriteSyncer].
  - destruct (newRollingFile_cases rev config w)
      as [(e & _ & ->)|(_ & l & ->)]; reflexivity.
  - reflexivity.
Qed.

(** A record below DPanic and below the logger's level changes nothing. *)
Lemma suppressed_below_level (w : World) (lg : zap.Logger) (lvl : zap.Level)
    (msg : string) (fields : list zap.Field) :
  DefaultZapLogger w = Some lg ->
  lvl < zap.core_level lg -> lvl < zap.DPanicLevel ->
  on_logger lvl msg fields w = (zap.returns, w).
Proof.
  intros Hlg Hlt Hdp. unfold on_logger, zap.log. rewrite Hlg.
  unfold zap.Enabled.
  apply Z.ltb_lt in Hdp. rewrite Hdp.
  assert ((zap.core_level lg <=? lvl) = false) as -> by (apply Z.leb_gt; lia).
  cbn. destruct w; reflexivity.
Qed.

(** *** Init *)

(** C1 (the code departs from the claim).  The claim: when the filename
    component of the path is empty, in particular for the empty path, Init
    returns the BadFile error.  The code: the component is taken with
    filepath.Base, which is never empty, so the guard is dead: Init never
    returns BadFile, and Init("", "error", 10, 3, false) returns a handle
    and no error after configuring the logger. *)
Theorem Init_never_reports_bad_file (rev : Revision) (w : World) :
  fst (Init rev "" "error" 10 3 false w) = (mkLog, None)
  /\ DefaultLoggerConfig (snd (Init rev "" "error" 10 3 false w))
     = mkConfig true true "." "." 10 3 0 false 0
  /\ forall file level size backup stackstrace,
       snd (fst (Init rev file level size backup stackstrace w))
       <> Some (Go.errors_New "Bad file").
Proof.
  split; [reflexivity|]. split.
  - unfold Init. cbn -[Configure]. apply Configure_config.
  - intros file level size backup st. unfold Init.
    rewrite Base_eqb_empty.
    destruct (orb _ _); [discriminate|].
    destruct (SetLogLevel_cases (if String.eqb level "" then "error" else level) w)
      as [[_ H]|[[_ H]|[[_ H]|[[_ H]|[_ H]]]]];
      rewrite H; discriminate.
Qed.

(** C8.  With a non-empty filename component, a negative size or a
    negative backup count makes Init return the "Bad size or backup" error,
    and nothing is configured: the world is the one before the call. *)
Theorem Init_rejects_negative_size_or_backup (rev : Revision)
    (file level : string) (size backup : Z) (stackstrace : bool) (w : World) :
  Go.filepath_Base file <> "" ->
  size < 0 \/ backup < 0 ->
  Init rev file level size backup stackstrace w
  = ((mkLog, Some (Go.errors_New "Bad size or backup")), w).
Proof.
  intros Hname Hneg. unfold Init.
  apply String.eqb_neq in Hname. rewrite Hname.
  assert (orb (size <? 0) (backup <? 0) = true) as ->.
  { apply Bool.orb_true_iff. destruct Hneg as [H|H]; [left|right];
      now apply Z.ltb_lt. }
  reflexivity.
Qed.

Lemma Init_rejects_negative_size_or_backup_witness :
  Go.filepath_Base "/tmp/app.log" <> ""
  /\ (-1 < 0 \/ 3 < 0)
  /\ Init logger_go "/tmp/app.log" "info" (-1) 3 false (start logger_go locked_process)
     = ((mkLog, Some (Go.errors_New "Bad size or backup")),
        start logger_go locked_process).
Proof.
  split; [discriminate|]. split; [left; lia|].
  apply (Init_rejects_negative_size_or_backup logger_go "/tmp/app.log" "info"
           (-1) 3 false (start logger_go locked_process)).
  - discriminate.
  - left; lia.
Defined.

(** C9.  With a non-empty filename component, a size and a backup count
    that are not negative, and the empty level name, Init succeeds and the
    published logger filters at error: records below error are dropped and
    a record at error reaches standard output. *)
Theorem Init_empty_level_defaults_to_error (rev : Revision) (file : string)
    (size backup : Z) (stackstrace : bool) (w : World) :
  Go.filepath_Base file <> "" ->
  0 <= size -> 0 <= backup ->
  exists lg w',
    Init rev file "" size backup stackstrace w = ((mkLog, None), w')
    /\ DefaultZapLogger w' = Some lg
    /\ zap.core_level lg = zap.ErrorLevel
    /\ (forall msg fields callers,
          Debug rev msg fields callers w' = (zap.returns, w')
          /\ Info msg fields w' = (zap.returns, w')
          /\ Warn msg fields w' = (zap.returns, w'))
    /\ (forall msg fields,
          zap.stdout (proc (snd (Error msg fields w')))
          = (zap.stdout (proc w')
               ++ [zap.wrote (zap.mkLine (zap.core_enc lg) zap.ErrorLevel
                                         msg fields)])%list).
Proof.
  intros Hname Hs Hb.
  apply String.eqb_neq in Hname.
  set (dir := if String.eqb (Go.filepath_Dir file) "" then "./"
              else Go.filepath_Dir file).
  set (config := mkConfig true true dir (Go.filepath_Base file) size backup 0
                          stackstrace 0).
  set (w1 := set_LogLevel zap.ErrorLevel w).
  assert (Init rev file "" size backup stackstrace w
          = ((mkLog, None), Configure rev config w1)) as HInit.
  { unfold Init. rewrite Hname.
    assert (orb (size <? 0) (backup <? 0) = false) as ->.
    { apply Bool.orb_false_iff. split; apply Z.ltb_ge; lia. }
    reflexivity. }
  pose proof (Configure_logger rev config w1) as Hlg.
  unfold newZapLogger in Hlg.
  eexists. exists (Configure rev config w1).
  split; [exact HInit|]. split; [exact Hlg|]. split; [reflexivity|]. split.
  - intros msg fields callers.
    assert (forall lvl m fs, lvl < zap.ErrorLevel ->
              on_logger lvl m fs (Configure rev config w1)
              = (zap.returns, Configure rev config w1)) as Hdrop.
    { intros lvl m fs Hlt.
      apply (suppressed_below_level _ _ lvl m fs Hlg);
        cbn; unfold zap.ErrorLevel, zap.DPanicLevel in *; lia. }
    unfold Debug, Info, Warn.
    repeat split; try (apply Hdrop; reflexivity).
    destruct (StackStrace _); apply Hdrop; reflexivity.
  - intros msg fields.
    destruct (emitted_reaches_stdout rev config w1 zap.ErrorLevel msg fields)
      as (lg' & Hlg' & Hout).
    { cbn. unfold zap.ErrorLevel. lia. }
    rewrite Hlg in Hlg'. inversion Hlg'; subst lg'. exact Hout.
Qed.

Lemma Init_empty_level_defaults_to_error_witness :
  exists lg w',
    Init logger_go "/tmp/app.log" "" 10 3 false (start logger_go locked_process)
    = ((mkLog, None), w')
    /\ DefaultZapLogger w' = Some lg
    /\ zap.core_level lg = zap.ErrorLevel.
Proof.
  destruct (Init_empty_level_defaults_to_error logger_go "/tmp/app.log" 10 3
              false (start logger_go locked_process))
    as (lg & w' & H1 & H2 & H3 & _).
  - discriminate.
  - lia.
  - lia.
  - exists lg, w'. auto.
Defined.

(** C10.  Whenever Init returns an error, the world (the published logger,
    the stored configuration with its level, and the process) is the one
    before the call, and the error is one of the three of the taxonomy. *)
Theorem Init_error_leaves_world (rev : Revision) (file level : string)
    (size backup : Z) (stackstrace : bool) (w w' : World) (l : Log)
    (e : Go.error) :
  Init rev file level size backup stackstrace w = ((l, Some e), w') ->
  w' = w
  /\ In e [Go.errors_New "Bad file"; Go.errors_New "Bad size or backup";
           Go.errors_New "Bad log level"].
Proof.
  unfold Init.
  destruct (String.eqb (Go.filepath_Base file) "").
  { intros E; inversion E; subst. split; [reflexivity|]. simpl; auto. }
  destruct (orb _ _).
  { intros E; inversion E; subst. split; [reflexivity|]. simpl; auto. }
  destruct (SetLogLevel_cases (if String.eqb level "" then "error" else level) w)
    as [[_ H]|[[_ H]|[[_ H]|[[_ H]|[_ H]]]]];
    rewrite H; intros E; inversion E; subst.
  split; [reflexivity|]. simpl; auto.
Qed.

Lemma Init_error_leaves_world_witness :
  start part_000 locked_process = start part_000 locked_process
  /\ In (Go.errors_New "Bad log level")
        [Go.errors_New "Bad file"; Go.errors_New "Bad size or backup";
         Go.errors_New "Bad log level"].
Proof.
  apply (Init_error_leaves_world part_000 "/tmp/app.log" "verbose" 10 3 false
           (start part_000 locked_process) (start part_000 locked_process)
           mkLog (Go.errors_New "Bad log level")).
  reflexivity.
Defined.

(** *** SetLogLevel, Configure *)

(** C3.  SetLogLevel succeeds exactly on the names debug, info, warn and
    error (compared byte for byte); on success the stored level is the
    severity of that name and nothing else changes; on any other name it
    returns the "Bad log level" error and the world is unchanged. *)
Theorem SetLogLevel_accepts_exactly_four_names (name : string) (w : World) :
  (fst (SetLogLevel name w) = None
   <-> In name ["debug"; "info"; "warn"; "error"])
  /\ (name = "debug"
      -> SetLogLevel name w = (None, set_LogLevel zap.DebugLevel w))
  /\ (name = "info"
      -> SetLogLevel name w = (None, set_LogLevel zap.InfoLevel w))
  /\ (name = "warn"
      -> SetLogLevel name w = (None, set_LogLevel zap.WarnLevel w))
  /\ (name = "error"
      -> SetLogLevel name w = (None, set_LogLevel zap.ErrorLevel w))
  /\ (~ In name ["debug"; "info"; "warn"; "error"]
      -> SetLogLevel name w = (Some (Go.errors_New "Bad log level"), w))
  /\ (forall l,
        LogLevel (DefaultLoggerConfig (set_LogLevel l w)) = l
        /\ DefaultLoggerConfig (set_LogLevel l w)
           = with_LogLevel l (DefaultLoggerConfig w)
        /\ proc (set_LogLevel l w) = proc w
        /\ DefaultZapLogger (set_LogLevel l w) = DefaultZapLogger w
        /\ DefaultZapSugaredLogger (set_LogLevel l w)
           = DefaultZapSugaredLogger w).
Proof.
  split.
  - destruct (SetLogLevel_cases name w)
      as [[-> H]|[[-> H]|[[-> H]|[[-> H]|[Hn H]]]]]; rewrite H; simpl;
      try (split; intros; auto; fail).
    split; [discriminate|]. intros Hin. exfalso. apply Hn. exact Hin.
  - repeat split; try (intros ->; reflexivity).
    intros Hn.
    destruct (SetLogLevel_cases name w)
      as [[-> H]|[[-> H]|[[-> H]|[[-> H]|[_ H]]]]];
      try exact H; exfalso; apply Hn; simpl; auto.
Qed.

Example SetLogLevel_is_case_sensitive :
  map (fun name => fst (SetLogLevel name (start logger_go locked_process)))
      ["Debug"; "ERROR"; "warning"; "panic"; "fatal"; ""; " info"]
  = repeat (Some (Go.errors_New "Bad log level")) 7.
Proof. reflexivity. Qed.

(** C4.  The logger Configure publishes filters at the level stored in the
    process-wide configuration when Configure is entered, with the encoding
    asked for in the argument; the level field of the argument plays no part
    in it.  Below that level (and below DPanic) a record changes nothing; at
    or above it the record is written. *)
Theorem Configure_filters_at_current_level (rev : Revision) (config : Config)
    (w : World) :
  exists lg,
    DefaultZapLogger (Configure rev config w) = Some lg
    /\ zap.core_level lg = LogLevel (DefaultLoggerConfig w)
    /\ zap.is_json (zap.core_enc lg) = EncodeLogsAsJson config
    /\ (forall l,
          DefaultZapLogger (Configure rev (with_LogLevel l config) w)
          = Some lg)
    /\ (forall lvl msg fields,
          lvl < LogLevel (DefaultLoggerConfig w) -> lvl < zap.DPanicLevel ->
          on_logger lvl msg fields (Configure rev config w)
          = (zap.returns, Configure rev config w))
    /\ (forall lvl msg fields,
          LogLevel (DefaultLoggerConfig w) <= lvl ->
          zap.stdout
            (proc (snd (on_logger lvl msg fields (Configure rev config w))))
          = (zap.stdout (proc (Configure rev config w))
               ++ [zap.wrote (zap.mkLine (zap.core_enc lg) lvl msg fields)])%list).
Proof.
  pose proof (Configure_logger rev config w) as Hlg.
  unfold newZapLogger in Hlg.
  eexists. split; [exact Hlg|]. split; [reflexivity|]. split.
  { cbn. destruct (EncodeLogsAsJson config); reflexivity. }
  split.
  { intros l. rewrite Configure_logger. reflexivity. }
  split.
  - intros lvl msg fields Hlt Hdp.
    apply (suppressed_below_level _ _ lvl msg fields Hlg); assumption.
  - intros lvl msg fields Hle.
    destruct (emitted_reaches_stdout rev config w lvl msg fields Hle)
      as (lg' & Hlg' & Hout).
    rewrite Hlg in Hlg'. inversion Hlg'; subst lg'. exact Hout.
Qed.

Example Configure_ignores_the_level_of_its_argument :
  let w := snd (SetLogLevel "warn" (start logger_go locked_process)) in
  let w' := Configure logger_go (mkConfig false false "" "" 0 0 0 false
                                          zap.DebugLevel) w in
  option_map zap.core_level (DefaultZapLogger w') = Some zap.WarnLevel
  /\ LogLevel (DefaultLoggerConfig w') = zap.DebugLevel.
Proof. split; reflexivity. Qed.

(** C6 does not hold as worded: with file logging enabled and a directory
    that cannot be created, the sink holds no rotation writer. *)
Lemma sink_without_rotation_writer_when_directory_locked :
  ~ sink_as_specified logger_go locked_config (start logger_go locked_process).
Proof.
  unfold sink_as_specified. intros [_ [_ H]].
  specialize (H eq_refl). vm_compute in H. discriminate.
Qed.

(** C6, amended.  The sink Configure builds has stdout as its first
    member, whether or not file logging is enabled, and every record at an
    enabled level is written to stdout; a rotation writer is a member of the
    sink exactly when file logging is enabled and the directory could be
    created. *)
Theorem Configure_sink_members (rev : Revision) (config : Config) (w : World) :
  let sink := sink_members (published_sink (Configure rev config w)) in
  hd_error sink = Some (Some zap.os_Stdout)
  /\ existsb is_stdout sink = true
  /\ (existsb is_rotation_writer sink = true
      <-> FileLoggingEnabled config = true
          /\ cannot_create (Directory config) w = false)
  /\ (FileLoggingEnabled config = false -> sink = [Some zap.os_Stdout])
  /\ (forall lvl msg fields,
        LogLevel (DefaultLoggerConfig w) <= lvl ->
        exists lg,
          DefaultZapLogger (Configure rev config w) = Some lg
          /\ zap.stdout
               (proc (snd (on_logger lvl msg fields (Configure rev config w))))
             = (zap.stdout (proc (Configure rev config w))
                  ++ [zap.wrote (zap.mkLine (zap.core_enc lg) lvl msg fields)])%list).
Proof.
  cbv zeta.
  assert (sink_members (published_sink (Configure rev config w))
          = fst (assembled rev config w)) as ->.
  { unfold published_sink. rewrite Configure_logger. unfold newZapLogger.
    cbn [zap.core_out]. unfold assembled.
    destruct (FileLoggingEnabled config); reflexivity. }
  unfold assembled, cannot_create.
  destruct (FileLoggingEnabled config).
  - destruct (newRollingFile_cases rev config w)
      as [(e & He & ->)|(Hn & l & ->)]; [rewrite He | rewrite Hn];
      cbn [fst hd_error existsb is_stdout is_rotation_writer orb];
      (split; [reflexivity|]); (split; [reflexivity|]);
      (split; [intuition congruence|]); (split; [discriminate|]);
      intros; now apply emitted_reaches_stdout.
  - cbn [fst hd_error existsb is_stdout is_rotation_writer orb].
    split; [reflexivity|]. split; [reflexivity|].
    split; [intuition congruence|]. split; [reflexivity|].
    intros; now apply emitted_reaches_stdout.
Qed.

(** C2 does not hold as worded: the failure to create the directory puts
    nothing on standard error. *)
Lemma directory_failure_is_not_reported_on_stderr :
  ~ stderr_report_and_noop_sink logger_go locked_config
      (start logger_go locked_process).
Proof.
  unfold stderr_report_and_noop_sink. intros H.
  destruct (H eq_refl eq_refl) as [[[o Ho] _] _].
  vm_compute in Ho. discriminate.
Qed.

(** C2, amended.  When file logging is enabled and the directory cannot be
    created, Configure still runs to its end and returns nothing: the
    failure is reported by one line on standard output, standard error is
    untouched, no rotation writer is built and no directory recorded, and the
    rest of the step takes place: the logger is published with the requested
    encoding at the current level, standard logging is redirected to it, and
    the configuration is stored. *)
Theorem Configure_survives_directory_failure (rev : Revision)
    (config : Config) (w : World) :
  FileLoggingEnabled config = true ->
  cannot_create (Directory config) w = true ->
  exists e lg,
    zap.lookup_error (Directory config) (zap.mkdir_errors (proc w)) = Some e
    /\ zap.stdout (proc (Configure rev config w))
       = (zap.stdout (proc w)
            ++ [zap.printed
                  ("Failed create log directory in " ++ Directory config
                     ++ ", error: " ++ Go.Error e ++ Go.newline)])%list
    /\ zap.stderr (proc (Configure rev config w)) = zap.stderr (proc w)
    /\ zap.rotated (proc (Configure rev config w)) = zap.rotated (proc w)
    /\ zap.dirs (proc (Configure rev config w)) = zap.dirs (proc w)
    /\ DefaultZapLogger (Configure rev config w) = Some lg
    /\ existsb is_rotation_writer (sink_members (zap.core_out lg)) = false
    /\ zap.is_json (zap.core_enc lg) = EncodeLogsAsJson config
    /\ zap.core_level lg = LogLevel (DefaultLoggerConfig w)
    /\ zap.stdlog (proc (Configure rev config w)) = Some lg
    /\ DefaultLoggerConfig (Configure rev config w) = config.
Proof.
  intros Hfile Hlock.
  pose proof (Configure_logger rev config w) as Hlg.
  pose proof (Configure_proc rev config w) as Hp.
  unfold newZapLogger in Hlg. rewrite Hlg in Hp.
  unfold assembled in Hlg, Hp. rewrite Hfile in Hlg, Hp.
  unfold cannot_create in Hlock.
  destruct (newRollingFile_cases rev config w)
    as [(e & He & Hrf)|(Hn & _)]; [|rewrite Hn in Hlock; discriminate].
  rewrite Hrf in Hlg, Hp. cbn [fst snd zap.NewMultiWriteSyncer] in Hlg, Hp.
  exists e. eexists.
  split; [exact He|].
  rewrite Hp, Hlg.
  repeat split; try reflexivity.
  - cbn. destruct (EncodeLogsAsJson config); reflexivity.
  - apply Configure_config.
Qed.

(** What the nil member does later is not part of the amended statement;
    for the record: a write at an enabled level reaches standard output and
    then dereferences the nil member. *)
Lemma emission_after_directory_failure (rev : Revision) (config : Config)
    (w : World) (lvl : zap.Level) (msg : string) (fields : list zap.Field) :
  FileLoggingEnabled config = true ->
  cannot_create (Directory config) w = true ->
  LogLevel (DefaultLoggerConfig w) <= lvl ->
  fst (on_logger lvl msg fields (Configure rev config w))
  = zap.nil_dereference.
Proof.
  intros Hfile Hlock Hle.
  pose proof (Configure_logger rev config w) as Hlg.
  unfold newZapLogger, assembled in Hlg. rewrite Hfile in Hlg.
  unfold cannot_create in Hlock.
  destruct (newRollingFile_cases rev config w)
    as [(e & He & Hrf)|(Hn & _)]; [|rewrite Hn in Hlock; discriminate].
  rewrite Hrf in Hlg. cbn [fst zap.NewMultiWriteSyncer] in Hlg.
  unfold on_logger, zap.log. rewrite Hlg. unfold zap.Enabled.
  cbn [zap.core_level zap.core_out].
  apply Z.leb_le in Hle. rewrite Hle, Bool.andb_false_r. reflexivity.
Qed.

Lemma Configure_survives_directory_failure_witness :
  exists e lg,
    zap.lookup_error "/nope"
      (zap.mkdir_errors (proc (start part_000 locked_process))) = Some e
    /\ zap.stdout (proc (Configure part_000 locked_config
                           (start part_000 locked_process)))
       = [zap.printed
            ("Failed create log directory in /nope, error: " ++ Go.Error e
               ++ Go.newline)]
    /\ zap.stderr (proc (Configure part_000 locked_config
                           (start part_000 locked_process))) = []
    /\ DefaultZapLogger (Configure part_000 locked_config
                           (start part_000 locked_process)) = Some lg.
Proof.
  destruct (Configure_survives_directory_failure part_000 locked_config
              (start part_000 locked_process) eq_refl eq_refl)
    as (e & lg & H1 & H2 & H3 & _ & _ & H6 & _).
  exists e, lg. repeat split; assumption.
Defined.

(** *** The facade *)

Lemma append_empty (s : string) : s ++ "" = s.
Proof. induction s as [|c s IH]; simpl; [|rewrite IH]; reflexivity. Qed.

(** What [Stack] reads when [Debug] calls it: the frame of the caller of
    [Debug], two levels above [Stack] itself. *)
Lemma Stack_names_caller_of_Debug (rev : Revision) (callers : list Go.Frame) :
  Stack rev (frame_of_Debug rev :: callers)
  = zap.String "stacktrace" (call_site callers).
Proof.
  unfold Stack, Go.runtime_Caller, call_site. cbn [nth_error].
  destruct callers as [|f rest]; [reflexivity|].
  f_equal. unfold Go.Sprintf. cbn. rewrite append_empty. reflexivity.
Qed.

(** C7.  With the stack flag set, Debug hands the backend the caller's
    fields followed by exactly one more, the field "stacktrace" whose value
    is file:function:line of the frame that called Debug, or the empty
    string when there is no such frame; with the flag clear it hands over
    the caller's fields alone.  A record that is emitted carries exactly
    these fields. *)
Theorem Debug_appends_call_site (rev : Revision) (msg : string)
    (fields : list zap.Field) (callers : list Go.Frame) (w : World) :
  let handed :=
    if StackStrace (DefaultLoggerConfig w)
    then (fields ++ [zap.String "stacktrace" (call_site callers)])%list
    else fields in
  Debug rev msg fields callers w = on_logger zap.DebugLevel msg handed w
  /\ call_site [] = ""
  /\ List.length handed
     = (List.length fields
        + if StackStrace (DefaultLoggerConfig w) then 1 else 0)%nat
  /\ forall lg,
       DefaultZapLogger w = Some lg ->
       zap.core_level lg <= zap.DebugLevel ->
       zap.core_out lg = Some zap.os_Stdout ->
       zap.stdout (proc (snd (Debug rev msg fields callers w)))
       = (zap.stdout (proc w)
            ++ [zap.wrote (zap.mkLine (zap.core_enc lg) zap.DebugLevel msg
                                      handed)])%list.
Proof.
  cbv zeta.
  assert (Debug rev msg fields callers w
          = on_logger zap.DebugLevel msg
              (if StackStrace (DefaultLoggerConfig w)
               then (fields ++ [zap.String "stacktrace" (call_site callers)])%list
               else fields) w) as HD.
  { unfold Debug. destruct (StackStrace (DefaultLoggerConfig w));
      [rewrite Stack_names_caller_of_Debug|]; reflexivity. }
  split; [exact HD|]. split; [reflexivity|]. split.
  - destruct (StackStrace (DefaultLoggerConfig w)).
    + rewrite List.length_app. reflexivity.
    + rewrite Nat.add_0_r. reflexivity.
  - intros lg Hlg Hlvl Hout. rewrite HD.
    unfold on_logger, zap.log. rewrite Hlg. unfold zap.Enabled.
    apply Z.leb_le in Hlvl. rewrite Hlvl, Hout. reflexivity.
Qed.

Example Debug_with_stack_flag :
  let w := snd (Init logger_go "app.log" "debug" 10 3 true
                     (start logger_go locked_process)) in
  let w' := snd (Debug logger_go "x" [Int "a" 1]
                       [Go.mkFrame "main.go" "main.run" 12;
                        Go.mkFrame "main.go" "main.main" 30] w) in
  map (fun o => match o with
                | zap.wrote ln => zap.line_fields ln
                | zap.printed _ => []
                end) (zap.stdout (proc w'))
  = [[zap.Int "a" 1; zap.String "stacktrace" "main.go:main.run:12"]].
Proof. reflexivity. Qed.

(** In logger.go the logger variable is initialised, and each of the six
    facade methods can be called before Init or Configure: debug is below
    the initial level and dropped, info, warn and error are written to
    standard output, Panic panics with the message and Fatal exits, both
    after the record was written. *)
Lemma facade_usable_before_configuration_in_logger_go (p : zap.Process)
    (msg : string) (fields : list zap.Field) (callers : list Go.Frame) :
  let w := start logger_go p in
  fst (Debug logger_go msg fields callers w) = zap.returns
  /\ fst (Info msg fields w) = zap.returns
  /\ fst (Warn msg fields w) = zap.returns
  /\ fst (Error msg fields w) = zap.returns
  /\ fst (Panic msg fields w) = zap.panics msg
  /\ fst (Fatal msg fields w) = zap.exits 1.
Proof. repeat split. Qed.

(** C5 (the code departs from the claim).  The claim: the logger instance
    holds a safe default at process start, so every facade method, the
    formatted variants included, can be called before Init or Configure.
    The code of the revision that has the formatted variants declares both
    logger variables without a value: before Init or Configure each of the
    eleven facade methods dereferences a nil pointer, and nothing is
    written. *)
Theorem facade_faults_before_configuration (p : zap.Process) (msg : string)
    (fields : list zap.Field) (args : list Go.Arg) (callers : list Go.Frame) :
  let w := start part_000 p in
  DefaultZapLogger w = None
  /\ DefaultZapSugaredLogger w = None
  /\ Debug part_000 msg fields callers w = (zap.nil_dereference, w)
  /\ Info msg fields w = (zap.nil_dereference, w)
  /\ Warn msg fields w = (zap.nil_dereference, w)
  /\ Error msg fields w = (zap.nil_dereference, w)
  /\ Panic msg fields w = (zap.nil_dereference, w)
  /\ Fatal msg fields w = (zap.nil_dereference, w)
  /\ Infof msg args w = (zap.nil_dereference, w)
  /\ Warnf msg args w = (zap.nil_dereference, w)
  /\ Errorf msg args w = (zap.nil_dereference, w)
  /\ Panicf msg args w = (zap.nil_dereference, w)
  /\ Fatalf msg args w = (zap.nil_dereference, w).
Proof. repeat split. Qed.

End Facts.

(** ** Further properties: outcomes, composition, invariants of programs *)

Module Laws.

Import logger Props Runs.

(** *** Writing through a sink *)

Lemma extends_refl {A : Type} (l : list A) : extends l l.
Proof. exists []. now rewrite app_nil_r. Qed.

Lemma extends_trans {A : Type} (l1 l2 l3 : list A) :
  extends l1 l2 -> extends l2 l3 -> extends l1 l3.
Proof.
  intros [m1 ->] [m2 ->]. exists (m1 ++ m2)%list. now rewrite app_assoc.
Qed.

Lemma extends_one {A : Type} (l : list A) (x : A) : extends l (l ++ [x]).
Proof. now exists [x]. Qed.

Lemma gained_refl (p : zap.Process) : only_gained_output p p.
Proof. repeat split; apply extends_refl. Qed.

Lemma gained_trans (p1 p2 p3 : zap.Process) :
  only_gained_output p1 p2 -> only_gained_output p2 p3 ->
  only_gained_output p1 p3.
Proof.
  intros (E1 & M1 & O1 & R1) (E2 & M2 & O2 & R2).
  repeat split; try congruence; eapply extends_trans; eassumption.
Qed.

(** A write through any sink returns or meets a nil member; it only adds
    to standard output and to what the rotation writers received. *)
Lemma Write_gains (ws : zap.WriteSyncer) :
  forall ln p,
    only_gained_output p (snd (zap.Write ws ln p))
    /\ (fst (zap.Write ws ln p) = zap.returns
        \/ fst (zap.Write ws ln p) = zap.nil_dereference).
Proof.
  induction ws using sink_ind; intros ln p.
  - simpl. split; [|now left].
    repeat split; [apply extends_one | apply extends_refl].
  - simpl. split; [|now left].
    repeat split; [apply extends_refl | apply extends_one].
  - simpl. revert p.
    induction H as [|m rest Hm HF IH]; intros p.
    + simpl. split; [apply gained_refl | now left].
    + destruct m as [x|].
      * specialize (Hm ln p).
        destruct (zap.Write x ln p) as [o p1] eqn:E. simpl in Hm.
        destruct Hm as [Hg [Ho|Ho]]; subst o.
        -- destruct (IH p1) as [Hg' Ho']. split; [|exact Ho'].
           eapply gained_trans; eassumption.
        -- simpl. split; [exact Hg | now right].
      * simpl. split; [apply gained_refl | now right].
Qed.

(** A call on a logger only adds output, and ends as its severity says:
    Panic panics with the message, Fatal exits with status 1, the others
    return; the one other ending is a nil dereference. *)
Lemma log_gains (lvl : zap.Level) (msg : string) (fields : list zap.Field)
    (l : option zap.Logger) (p : zap.Process) :
  only_gained_output p (snd (zap.log lvl msg fields l p))
  /\ (fst (zap.log lvl msg fields l p) = zap.after_write lvl msg
      \/ fst (zap.log lvl msg fields l p) = zap.nil_dereference
      \/ (lvl < zap.DPanicLevel
          /\ zap.log lvl msg fields l p = (zap.returns, p))).
Proof.
  unfold zap.log. destruct l as [lg|].
  2:{ split; [apply gained_refl | now right; left]. }
  destruct (andb _ _) eqn:Hdrop.
  { apply Bool.andb_true_iff in Hdrop. destruct Hdrop as [Hlt _].
    apply Z.ltb_lt in Hlt.
    split; [apply gained_refl | now right; right]. }
  destruct (zap.Enabled lg lvl).
  2:{ split; [apply gained_refl | now left]. }
  destruct (zap.core_out lg) as [ws|].
  2:{ split; [apply gained_refl | now right; left]. }
  destruct (Write_gains ws (zap.mkLine (zap.core_enc lg) lvl msg fields) p)
    as [Hg Ho].
  destruct (zap.Write ws _ p) as [o p1]. simpl in Hg, Ho.
  destruct Ho as [->| ->]; simpl; split; auto.
Qed.

Lemma after_write_cases (lvl : zap.Level) (msg : string) :
  (lvl = zap.PanicLevel /\ zap.after_write lvl msg = zap.panics msg)
  \/ (lvl = zap.FatalLevel /\ zap.after_write lvl msg = zap.exits 1)
  \/ (lvl <> zap.PanicLevel /\ lvl <> zap.FatalLevel
      /\ zap.after_write lvl msg = zap.returns).
Proof.
  unfold zap.after_write.
  destruct (Z.eqb_spec lvl zap.PanicLevel) as [->|Hp]; [now left|].
  destruct (Z.eqb_spec lvl zap.FatalLevel) as [->|Hf]; [now right; left|].
  right; right. auto.
Qed.

(** *** How a facade call ends *)

Lemma on_logger_gains (lvl : zap.Level) (msg : string)
    (fields : list zap.Field) (w : World) :
  only_gained_output (proc w) (proc (snd (on_logger lvl msg fields w)))
  /\ DefaultZapLogger (snd (on_logger lvl msg fields w)) = DefaultZapLogger w
  /\ DefaultZapSugaredLogger (snd (on_logger lvl msg fields w))
     = DefaultZapSugaredLogger w
  /\ DefaultLoggerConfig (snd (on_logger lvl msg fields w))
     = DefaultLoggerConfig w
  /\ (fst (on_logger lvl msg fields w) = zap.after_write lvl msg
      \/ fst (on_logger lvl msg fields w) = zap.nil_dereference
      \/ (lvl < zap.DPanicLevel
          /\ fst (on_logger lvl msg fields w) = zap.returns)).
Proof.
  unfold on_logger.
  destruct (log_gains lvl msg fields (DefaultZapLogger w) (proc w))
    as [Hg Ho].
  destruct (zap.log lvl msg fields (DefaultZapLogger w) (proc w)) as [o p1].
  simpl in *. split; [exact Hg|].
  split; [reflexivity|]. split; [reflexivity|]. split; [reflexivity|].
  destruct Ho as [Ho|[Ho|[Hlt Ho]]]; auto.
  inversion Ho; subst. auto.
Qed.

Lemma on_sugared_gains (lvl : zap.Level) (msg : string) (args : list Go.Arg)
    (w : World) :
  only_gained_output (proc w) (proc (snd (on_sugared lvl msg args w)))
  /\ DefaultZapLogger (snd (on_sugared lvl msg args w)) = DefaultZapLogger w
  /\ DefaultZapSugaredLogger (snd (on_sugared lvl msg args w))
     = DefaultZapSugaredLogger w
  /\ DefaultLoggerConfig (snd (on_sugared lvl msg args w))
     = DefaultLoggerConfig w.
Proof.
  unfold on_sugared, zap.logf.
  destruct (DefaultZapSugaredLogger w) as [sg|] eqn:Es.
  - destruct (log_gains lvl (Go.Sprintf msg args) [] (Some (zap.base sg))
                (proc w)) as [Hg _].
    destruct (zap.log _ _ _ _ _) as [o p1]. simpl in *.
    split; [exact Hg|]. repeat split; assumption.
  - simpl. split; [apply gained_refl|]. repeat split; assumption.
Qed.

(** X1.  Panic and Fatal never return to the caller, and no other facade
    method panics with a message or ends the process, in any state of the
    package: Panic ends in a panic carrying its message and Fatal in an exit
    with status 1, the four lower severities return; the one other ending of
    any of them is a nil dereference. *)
Theorem facade_endings (rev : Revision) (w : World) (msg : string)
    (fields : list zap.Field) (callers : list Go.Frame) :
  (fst (Panic msg fields w) = zap.panics msg
   \/ fst (Panic msg fields w) = zap.nil_dereference)
  /\ (fst (Fatal msg fields w) = zap.exits 1
      \/ fst (Fatal msg fields w) = zap.nil_dereference)
  /\ Forall (fun o => o = zap.returns \/ o = zap.nil_dereference)
       [fst (Debug rev msg fields callers w); fst (Info msg fields w);
        fst (Warn msg fields w); fst (Error msg fields w)].
Proof.
  split; [|split].
  - unfold Panic.
    destruct (on_logger_gains zap.PanicLevel msg fields w)
      as (_ & _ & _ & _ & [E|[E|[Hlt _]]]);
      [left; exact E | right; exact E | ].
    exfalso. unfold zap.PanicLevel, zap.DPanicLevel in Hlt. lia.
  - unfold Fatal.
    destruct (on_logger_gains zap.FatalLevel msg fields w)
      as (_ & _ & _ & _ & [E|[E|[Hlt _]]]);
      [left; exact E | right; exact E | ].
    exfalso. unfold zap.FatalLevel, zap.DPanicLevel in Hlt. lia.
  - assert (forall lvl fs,
              lvl < zap.PanicLevel ->
              fst (on_logger lvl msg fs w) = zap.returns
              \/ fst (on_logger lvl msg fs w) = zap.nil_dereference) as H.
    { intros lvl fs Hlt.
      destruct (on_logger_gains lvl msg fs w)
        as (_ & _ & _ & _ & [E|[E|[_ E]]]); auto.
      destruct (after_write_cases lvl msg) as [[-> _]|[[-> _]|(_ & _ & R)]];
        [unfold zap.PanicLevel in Hlt; lia
        |unfold zap.PanicLevel, zap.FatalLevel in Hlt; lia
        |left; congruence]. }
    unfold Debug, Info, Warn, Error.
    repeat (apply Forall_cons;
            [try (destruct (StackStrace (DefaultLoggerConfig w)));
             apply H; reflexivity|]).
    apply Forall_nil.
Qed.

(** *** The worlds Init and SetLogLevel return *)

Lemma Init_world (rev : Revision) (file level : string) (size backup : Z)
    (stackstrace : bool) (w : World) :
  snd (Init rev file level size backup stackstrace w) = w
  \/ exists l config,
      snd (Init rev file level size backup stackstrace w)
      = Configure rev config (set_LogLevel l w).
Proof.
  unfold Init.
  destruct (String.eqb (Go.filepath_Base file) ""); [now left|].
  destruct (orb _ _); [now left|].
  destruct (Facts.SetLogLevel_cases
              (if String.eqb level "" then "error" else level) w)
    as [[_ H]|[[_ H]|[[_ H]|[[_ H]|[_ H]]]]]; rewrite H;
    [right; eexists; eexists; reflexivity .. | now left].
Qed.

Lemma SetLogLevel_world (level : string) (w : World) :
  snd (SetLogLevel level w) = w
  \/ exists l, snd (SetLogLevel level w) = set_LogLevel l w.
Proof.
  destruct (Facts.SetLogLevel_cases level w)
    as [[_ H]|[[_ H]|[[_ H]|[[_ H]|[_ H]]]]]; rewrite H;
    [right; eexists; reflexivity .. | now left].
Qed.

(** *** Programs: what every state satisfies *)

Lemma Configure_invariant (rev : Revision) (config : Config) (w : World) :
  package_invariant rev (Configure rev config w).
Proof.
  pose proof (Facts.Configure_logger rev config w) as Hlg.
  unfold newZapLogger in Hlg.
  split; [|split].
  - intros lg E. rewrite Hlg in E. inversion E; subst lg; clear E.
    cbn [zap.core_enc zap.core_out]. split.
    + destruct (EncodeLogsAsJson config); [now right | now left].
    + unfold assembled, stdout_first.
      destruct (FileLoggingEnabled config); [|now left].
      destruct (Facts.newRollingFile_cases rev config w)
        as [(e & _ & ->)|(_ & l & ->)]; simpl;
        [right; left; reflexivity | right; right; eexists; reflexivity].
  - intros _. rewrite Hlg. discriminate.
  - intros ->. unfold sugared_in_step, Configure.
    destruct (FileLoggingEnabled config);
      [destruct (newRollingFile part_000 config w)|]; reflexivity.
Qed.

Lemma invariant_same_loggers (rev : Revision) (w w' : World) :
  DefaultZapLogger w' = DefaultZapLogger w ->
  DefaultZapSugaredLogger w' = DefaultZapSugaredLogger w ->
  package_invariant rev w -> package_invariant rev w'.
Proof.
  intros El Es (Hs & Hn & Hg).
  unfold package_invariant, logger_in_shape, sugared_in_step in *.
  rewrite El, Es. auto.
Qed.

Lemma call_invariant (rev : Revision) (c : Call) (w : World) :
  package_invariant rev w -> package_invariant rev (snd (call rev c w)).
Proof.
  intros Inv.
  destruct c; simpl;
    try (unfold Debug, Info, Warn, Error, Panic, Fatal;
         try destruct (StackStrace _);
         (apply (invariant_same_loggers rev w); [| |exact Inv];
          apply on_logger_gains));
    try (unfold Infof, Warnf, Errorf, Panicf, Fatalf;
         apply (invariant_same_loggers rev w); [| |exact Inv];
         apply on_sugared_gains).
  - destruct (SetLogLevel_world level w) as [->|[l ->]]; [exact Inv|].
    apply (invariant_same_loggers rev w); [reflexivity..|exact Inv].
  - apply Configure_invariant.
  - destruct (Init_world rev file level size backup stackstrace w)
      as [->|(l & config & ->)]; [exact Inv|].
    apply Configure_invariant.
Qed.

Lemma start_invariant (rev : Revision) (p : zap.Process) :
  package_invariant rev (start rev p).
Proof.
  destruct rev; (split; [|split]); try discriminate; try reflexivity.
  intros lg E. inversion E; subst lg. simpl.
  split; [now left | now left].
Qed.

Lemma run_invariant (rev : Revision) (cs : list Call) (w : World) :
  package_invariant rev w -> package_invariant rev (run rev cs w).
Proof.
  revert w. induction cs as [|c rest IH]; intros w Inv; simpl; [exact Inv|].
  pose proof (call_invariant rev c w Inv) as Hc.
  destruct (call rev c w) as [o w1]. simpl in Hc.
  destruct o; try exact Hc; apply IH; exact Hc.
Qed.

Lemma Write_stdout_first (o : option zap.WriteSyncer) (ln : zap.Line)
    (p : zap.Process) :
  stdout_first o ->
  exists ws,
    o = Some ws
    /\ zap.stdout (snd (zap.Write ws ln p))
       = (zap.stdout p ++ [zap.wrote ln])%list.
Proof.
  intros [->|[->|[l ->]]]; eexists; (split; [reflexivity|]); reflexivity.
Qed.

(** X2.  In every state a program can reach, a record at a severity the
    published logger enables is appended to standard output exactly once, in
    the fixed schema of the revision, whatever else the sink holds; and in
    logger.go there is a published logger in every such state. *)
Theorem enabled_record_reaches_stdout_once (rev : Revision) (cs : list Call)
    (p : zap.Process) (lvl : zap.Level) (msg : string)
    (fields : list zap.Field) :
  let w := run rev cs (start rev p) in
  (rev = logger_go -> DefaultZapLogger w <> None)
  /\ forall lg,
       DefaultZapLogger w = Some lg ->
       zap.core_level lg <= lvl ->
       fixed_schema rev (zap.core_enc lg)
       /\ zap.stdout (proc (snd (on_logger lvl msg fields w)))
          = (zap.stdout (proc w)
               ++ [zap.wrote (zap.mkLine (zap.core_enc lg) lvl msg fields)])%list.
Proof.
  cbv zeta.
  destruct (run_invariant rev cs (start rev p) (start_invariant rev p))
    as (Hshape & Hsome & _).
  split; [exact Hsome|].
  intros lg Hlg Hle. destruct (Hshape lg Hlg) as [Hschema Hsink].
  split; [exact Hschema|].
  unfold on_logger, zap.log. rewrite Hlg. unfold zap.Enabled.
  apply Z.leb_le in Hle. rewrite Hle, Bool.andb_false_r.
  destruct (Write_stdout_first (zap.core_out lg)
              (zap.mkLine (zap.core_enc lg) lvl msg fields)
              (run rev cs (start rev p)).(proc) Hsink) as (ws & -> & Hout).
  destruct (zap.Write ws _ _) as [o p1]. simpl in Hout.
  destruct o; exact Hout.
Qed.


(** *** How the operations compose *)

(** X4.  SetLogLevel alone changes nothing about what is logged: after it,
    every call on the published logger ends the same way and leaves the
    same process as it would have before.  (The new level is used by the
    next Configure only.) *)
Theorem SetLogLevel_leaves_published_filter (name : string) (w : World)
    (lvl : zap.Level) (msg : string) (fields : list zap.Field) :
  DefaultZapLogger (snd (SetLogLevel name w)) = DefaultZapLogger w
  /\ fst (on_logger lvl msg fields (snd (SetLogLevel name w)))
     = fst (on_logger lvl msg fields w)
  /\ proc (snd (on_logger lvl msg fields (snd (SetLogLevel name w))))
     = proc (snd (on_logger lvl msg fields w)).
Proof.
  destruct (SetLogLevel_world name w) as [->|[l ->]]; [auto|].
  unfold on_logger, set_LogLevel, set_DefaultLoggerConfig.
  cbn [DefaultZapLogger proc].
  destruct (zap.log lvl msg fields (DefaultZapLogger w) (proc w)).
  auto.
Qed.

(** X5.  The level field of the configuration passed to Configure takes
    effect one call late: the logger published by the next Configure
    filters at the level field of the previous Configure's argument,
    whatever SetLogLevel stored before the first of the two. *)
Theorem Configure_level_takes_effect_one_call_late (rev : Revision)
    (c1 c2 : Config) (w : World) :
  exists lg,
    DefaultZapLogger (Configure rev c2 (Configure rev c1 w)) = Some lg
    /\ zap.core_level lg = LogLevel c1
    /\ LogLevel (DefaultLoggerConfig (Configure rev c2 (Configure rev c1 w)))
       = LogLevel c2.
Proof.
  pose proof (Facts.Configure_logger rev c2 (Configure rev c1 w)) as Hlg.
  unfold newZapLogger in Hlg. rewrite Facts.Configure_config in Hlg.
  eexists. split; [exact Hlg|]. split; [reflexivity|].
  now rewrite Facts.Configure_config.
Qed.

(** X6.  Stack reads the frame two levels above itself.  Called through
    Debug that is the caller of Debug; called directly by a function, it is
    the caller of that function, and the empty string when that function has
    no caller. *)
Theorem Stack_called_directly (rev : Revision) (f : Go.Frame)
    (above : list Go.Frame) :
  Stack rev (f :: above) = zap.String "stacktrace" (call_site above).
Proof.
  unfold Stack, Go.runtime_Caller, call_site. cbn [nth_error].
  destruct above as [|g rest]; [reflexivity|].
  f_equal. unfold Go.Sprintf. cbn. rewrite Facts.append_empty. reflexivity.
Qed.

(** *** Init: which error, which state *)

Lemma string_of_list_ascii_empty (l : list ascii) :
  string_of_list_ascii l = "" -> l = [].
Proof. destruct l; [reflexivity | discriminate]. Qed.

Lemma Clean_nonempty (path : string) : Go.Clean path <> "".
Proof.
  unfold Go.Clean.
  destruct (list_ascii_of_string path) as [|c r]; [discriminate|].
  match goal with |- match ?o with _ => _ end <> _ => destruct o as [|a out] end;
    [discriminate|].
  intros E. apply string_of_list_ascii_empty in E.
  simpl in E. symmetry in E. now apply app_cons_not_nil in E.
Qed.

Lemma Dir_eqb_empty (path : string) :
  String.eqb (Go.filepath_Dir path) "" = false.
Proof. apply String.eqb_neq. unfold Go.filepath_Dir. apply Clean_nonempty. Qed.

Lemma severity_cases (level : string) :
  (severity level = Some zap.ErrorLevel
   /\ (if String.eqb level "" then "error" else level) = "error")
  \/ (severity level = Some zap.DebugLevel /\ level = "debug")
  \/ (severity level = Some zap.InfoLevel /\ level = "info")
  \/ (severity level = Some zap.WarnLevel /\ level = "warn")
  \/ (severity level = None /\ level <> ""
      /\ ~ In level ["debug"; "info"; "warn"; "error"]).
Proof.
  unfold severity.
  destruct (String.eqb_spec level "") as [->|H0]; [now left|].
  destruct (String.eqb_spec level "debug") as [->|Hd]; [now right; left|].
  destruct (String.eqb_spec level "info") as [->|Hi]; [now right; right; left|].
  destruct (String.eqb_spec level "warn") as [->|Hw];
    [now right; right; right; left|].
  destruct (String.eqb_spec level "error") as [->|He]; [now left|].
  right; right; right; right. repeat split; auto.
  simpl. intuition congruence.
Qed.

(** What [Init] does once the size and the backup count have passed. *)
Lemma Init_after_size_check (rev : Revision) (file level : string)
    (size backup : Z) (stackstrace : bool) (w : World) :
  0 <= size -> 0 <= backup ->
  Init rev file level size backup stackstrace w
  = match severity level with
    | Some l =>
        ((mkLog, None),
         Configure rev (Init_config file size backup stackstrace)
                   (set_LogLevel l w))
    | None => ((mkLog, Some (Go.errors_New "Bad log level")), w)
    end.
Proof.
  intros Hs Hb. unfold Init.
  rewrite Facts.Base_eqb_empty, Dir_eqb_empty.
  assert (orb (size <? 0) (backup <? 0) = false) as ->.
  { apply Bool.orb_false_iff. split; apply Z.ltb_ge; lia. }
  destruct (severity_cases level)
    as [[-> E]|[[-> ->]|[[-> ->]|[[-> ->]|(-> & H0 & Hn)]]]];
    try reflexivity.
  - rewrite E. reflexivity.
  - apply String.eqb_neq in H0. rewrite H0.
    destruct (Facts.SetLogLevel_cases level w)
      as [[-> H]|[[-> H]|[[-> H]|[[-> H]|[_ H]]]]];
      try (exfalso; apply Hn; simpl; auto; fail).
    rewrite H. reflexivity.
Qed.

(** X7.  Which error Init returns.  A negative size or backup count gives
    "Bad size or backup", also when the level name is bad too; otherwise a
    level name other than the empty one, debug, info, warn and error gives
    "Bad log level"; otherwise there is no error.  The path plays no part:
    no path makes Init fail. *)
Theorem Init_error_precedence (rev : Revision) (file level : string)
    (size backup : Z) (stackstrace : bool) (w : World) :
  snd (fst (Init rev file level size backup stackstrace w))
  = if orb (size <? 0) (backup <? 0)
    then Some (Go.errors_New "Bad size or backup")
    else match severity level with
         | Some _ => None
         | None => Some (Go.errors_New "Bad log level")
         end.
Proof.
  destruct (orb (size <? 0) (backup <? 0)) eqn:Hneg.
  - unfold Init. rewrite Facts.Base_eqb_empty, Hneg. reflexivity.
  - apply Bool.orb_false_iff in Hneg. destruct Hneg as [Hs Hb].
    apply Z.ltb_ge in Hs, Hb.
    rewrite Init_after_size_check by assumption.
    destruct (severity level); reflexivity.
Qed.

(** X8.  What a successful Init leaves behind.  The stored configuration has
    JSON and file logging on, the directory and the file name split from the
    path (the directory is never replaced by "./"), the given size, backup
    count and stack flag, no age limit, and the level field 0 (info) for
    every level name; the published logger encodes JSON and filters at the
    severity of the level name, and standard logging is redirected to it. *)
Theorem Init_success_state (rev : Revision) (file level : string)
    (size backup : Z) (stackstrace : bool) (w : World) (l : zap.Level) :
  0 <= size -> 0 <= backup -> severity level = Some l ->
  let w' := snd (Init rev file level size backup stackstrace w) in
  DefaultLoggerConfig w'
  = mkConfig true true (Go.filepath_Dir file) (Go.filepath_Base file)
             size backup 0 stackstrace zap.InfoLevel
  /\ exists lg,
       DefaultZapLogger w' = Some lg
       /\ zap.core_level lg = l
       /\ zap.core_enc lg = zap.NewJSONEncoder (encCfg rev)
       /\ stdout_first (zap.core_out lg)
       /\ zap.stdlog (proc w') = Some lg.
Proof.
  intros Hs Hb Hl. cbv zeta.
  rewrite Init_after_size_check by assumption. rewrite Hl. cbn [snd].
  split; [apply Facts.Configure_config|].
  pose proof (Facts.Configure_logger rev
                (Init_config file size backup stackstrace)
                (set_LogLevel l w)) as Hlg.
  unfold newZapLogger in Hlg. cbn [EncodeLogsAsJson Init_config] in Hlg.
  eexists. split; [exact Hlg|]. split; [reflexivity|].
  split; [reflexivity|]. split.
  - destruct (Configure_invariant rev
                (Init_config file size backup stackstrace)
                (set_LogLevel l w)) as (Hshape & _).
    apply (Hshape _ Hlg).
  - rewrite Facts.Configure_proc, Hlg. reflexivity.
Qed.

Lemma Init_success_state_witness :
  DefaultLoggerConfig
    (snd (Init part_000 "/var/log/svc/app.log" "warn" 20 1 true
               (start part_000 locked_process)))
  = mkConfig true true "/var/log/svc" "app.log" 20 1 0 true 0.
Proof.
  exact (proj1 (Init_success_state part_000 "/var/log/svc/app.log" "warn"
                  20 1 true (start part_000 locked_process) zap.WarnLevel
                  ltac:(lia) ltac:(lia) eq_refl)).
Defined.

(** X9.  A level chosen through Init lasts until the next Configure only:
    Init publishes a logger at the severity of the level name, and a
    Configure called after it, with any configuration, publishes one at
    info. *)
Theorem Init_level_is_lost_at_next_Configure (rev : Revision)
    (file level : string) (size backup : Z) (stackstrace : bool) (w : World)
    (l : zap.Level) (config : Config) :
  0 <= size -> 0 <= backup -> severity level = Some l ->
  let w' := snd (Init rev file level size backup stackstrace w) in
  option_map zap.core_level (DefaultZapLogger w') = Some l
  /\ option_map zap.core_level (DefaultZapLogger (Configure rev config w'))
     = Some zap.InfoLevel.
Proof.
  intros Hs Hb Hl. cbv zeta.
  rewrite Init_after_size_check by assumption. rewrite Hl. cbn [snd].
  rewrite !Facts.Configure_logger. unfold newZapLogger. cbn [option_map].
  rewrite Facts.Configure_config. split; reflexivity.
Qed.

Lemma Init_level_is_lost_at_next_Configure_witness :
  let w' := snd (Init logger_go "/tmp/app.log" "debug" 10 3 false
                      (start logger_go locked_process)) in
  option_map zap.core_level (DefaultZapLogger w') = Some zap.DebugLevel
  /\ option_map zap.core_level
       (DefaultZapLogger (Configure logger_go locked_config w'))
     = Some zap.InfoLevel.
Proof.
  apply (Init_level_is_lost_at_next_Configure logger_go "/tmp/app.log"
           "debug" 10 3 false (start logger_go locked_process)
           zap.DebugLevel locked_config); [lia | lia | reflexivity].
Defined.

(** X10.  After a successful Init the facade filters by the severity of the
    level name: a call below it changes nothing, a call at or above it
    appends its record to standard output. *)
Theorem Init_level_filters_the_facade (rev : Revision) (file level : string)
    (size backup : Z) (stackstrace : bool) (w : World) (l : zap.Level)
    (lvl : zap.Level) (msg : string) (fields : list zap.Field) :
  0 <= size -> 0 <= backup -> severity level = Some l ->
  let w' := snd (Init rev file level size backup stackstrace w) in
  (lvl < l -> on_logger lvl msg fields w' = (zap.returns, w'))
  /\ (l <= lvl ->
      exists lg,
        DefaultZapLogger w' = Some lg
        /\ zap.stdout (proc (snd (on_logger lvl msg fields w')))
           = (zap.stdout (proc w')
                ++ [zap.wrote (zap.mkLine (zap.core_enc lg) lvl msg fields)])%list).
Proof.
  intros Hs Hb Hl. cbv zeta.
  rewrite Init_after_size_check by assumption. rewrite Hl. cbn [snd].
  split.
  - intros Hlt.
    pose proof (Facts.Configure_logger rev
                  (Init_config file size backup stackstrace)
                  (set_LogLevel l w)) as Hlg.
    unfold newZapLogger in Hlg.
    apply (Facts.suppressed_below_level _ _ lvl msg fields Hlg).
    + exact Hlt.
    + assert (l <= zap.ErrorLevel) as Hmax.
      { destruct (severity_cases level)
          as [[E _]|[[E _]|[[E _]|[[E _]|[E _]]]]];
          rewrite E in Hl; inversion Hl; subst l;
          unfold zap.ErrorLevel, zap.DebugLevel, zap.InfoLevel,
            zap.WarnLevel; lia. }
      unfold zap.ErrorLevel in Hmax. unfold zap.DPanicLevel. lia.
  - intros Hle. apply Facts.emitted_reaches_stdout. exact Hle.
Qed.

Lemma Init_level_filters_the_facade_witness :
  let w' := snd (Init logger_go "/tmp/app.log" "warn" 10 3 false
                      (start logger_go locked_process)) in
  on_logger zap.InfoLevel "started" [] w' = (zap.returns, w').
Proof.
  apply (proj1 (Init_level_filters_the_facade logger_go "/tmp/app.log" "warn"
                  10 3 false (start logger_go locked_process) zap.WarnLevel
                  zap.InfoLevel "started" [] ltac:(lia) ltac:(lia) eq_refl)).
  reflexivity.
Defined.

(** *** Configure: the two healthy cases *)

(** X11.  Configure with file logging off touches neither the directories nor
    the output: nothing is printed, no directory is created, the sink is
    standard output alone; afterwards no call on the logger dereferences nil
    and none reaches a rotation writer. *)
Theorem Configure_without_file_logging (rev : Revision) (config : Config)
    (w : World) (lvl : zap.Level) (msg : string) (fields : list zap.Field) :
  FileLoggingEnabled config = false ->
  let w' := Configure rev config w in
  published_sink w' = Some zap.os_Stdout
  /\ zap.stdout (proc w') = zap.stdout (proc w)
  /\ zap.dirs (proc w') = zap.dirs (proc w)
  /\ zap.rotated (proc w') = zap.rotated (proc w)
  /\ fst (on_logger lvl msg fields w') <> zap.nil_dereference
  /\ zap.rotated (proc (snd (on_logger lvl msg fields w')))
     = zap.rotated (proc w)
  /\ zap.dirs (proc (snd (on_logger lvl msg fields w'))) = zap.dirs (proc w).
Proof.
  intros Hoff. cbv zeta.
  pose proof (Facts.Configure_logger rev config w) as Hlg.
  pose proof (Facts.Configure_proc rev config w) as Hp.
  unfold newZapLogger, assembled in Hlg. unfold assembled in Hp.
  rewrite Hoff in Hlg, Hp. cbn [fst snd zap.NewMultiWriteSyncer] in Hlg, Hp.
  unfold published_sink, on_logger, zap.log, zap.Enabled. rewrite Hlg, Hp.
  cbn [zap.core_out zap.core_enc zap.core_level zap.Write].
  split; [reflexivity|]. split; [reflexivity|]. split; [reflexivity|].
  split; [reflexivity|].
  destruct (andb _ _); [cbn; repeat split; discriminate|].
  destruct (LogLevel (DefaultLoggerConfig w) <=? lvl); cbn.
  - repeat split. unfold zap.after_write.
    destruct (lvl =? zap.PanicLevel); [discriminate|].
    destruct (lvl =? zap.FatalLevel); discriminate.
  - repeat split. unfold zap.after_write.
    destruct (lvl =? zap.PanicLevel); [discriminate|].
    destruct (lvl =? zap.FatalLevel); discriminate.
Qed.

Lemma Configure_without_file_logging_witness :
  published_sink
    (Configure part_000 (mkConfig true false "/nope" "app.log" 1 1 1 false 0)
               (start part_000 locked_process))
  = Some zap.os_Stdout.
Proof.
  exact (proj1 (Configure_without_file_logging part_000
                  (mkConfig true false "/nope" "app.log" 1 1 1 false 0)
                  (start part_000 locked_process) zap.InfoLevel "x" []
                  eq_refl)).
Defined.

Lemma add_dir_In (d : string) (p : zap.Process) :
  In d (zap.dirs (zap.add_dir d p)).
Proof.
  unfold zap.add_dir. cbn [zap.dirs].
  destruct (existsb (String.eqb d) (zap.dirs p)) eqn:E.
  - apply existsb_exists in E. destruct E as (x & Hin & Heq).
    apply String.eqb_eq in Heq. now subst x.
  - apply in_or_app. right. now left.
Qed.

(** X12.  Configure with file logging on and a directory that can be created
    records the directory, prints nothing, and builds the rotation writer
    from the configuration: file directory/filename joined and cleaned, size,
    age and backup limits copied, local time in the later revision only.
    Afterwards a record at an enabled severity is handed, the same bytes, to
    standard output first and to that rotation writer second, and the call
    ends as its severity says. *)
Theorem Configure_with_rotation (rev : Revision) (config : Config)
    (w : World) (lvl : zap.Level) (msg : string) (fields : list zap.Field) :
  FileLoggingEnabled config = true ->
  cannot_create (Directory config) w = false ->
  let w' := Configure rev config w in
  let rw := rotation_writer rev config in
  published_sink w'
  = Some (zap.multiWriteSyncer [Some zap.os_Stdout; Some (zap.AddSync rw)])
  /\ In (Directory config) (zap.dirs (proc w'))
  /\ zap.stdout (proc w') = zap.stdout (proc w)
  /\ (LogLevel (DefaultLoggerConfig w) <= lvl ->
      exists ln,
        zap.line_level ln = lvl /\ zap.line_msg ln = msg
        /\ zap.line_fields ln = fields
        /\ zap.is_json (zap.line_enc ln) = EncodeLogsAsJson config
        /\ zap.stdout (proc (snd (on_logger lvl msg fields w')))
           = (zap.stdout (proc w') ++ [zap.wrote ln])%list
        /\ zap.rotated (proc (snd (on_logger lvl msg fields w')))
           = (zap.rotated (proc w') ++ [(rw, ln)])%list
        /\ fst (on_logger lvl msg fields w') = zap.after_write lvl msg).
Proof.
  intros Hon Hok. cbv zeta.
  assert (newRollingFile rev config w
          = (Some (zap.AddSync (rotation_writer rev config)),
             set_proc (zap.add_dir (Directory config) (proc w)) w)) as Hrf.
  { unfold newRollingFile, zap.os_MkdirAll. unfold cannot_create in Hok.
    destruct (zap.lookup_error _ _); [discriminate|reflexivity]. }
  pose proof (Facts.Configure_logger rev config w) as Hlg.
  pose proof (Facts.Configure_proc rev config w) as Hp.
  unfold newZapLogger, assembled in Hlg. unfold assembled in Hp.
  rewrite Hon, Hrf in Hlg, Hp.
  cbn [fst snd zap.NewMultiWriteSyncer] in Hlg, Hp.
  unfold published_sink, on_logger, zap.log, zap.Enabled. rewrite Hlg, Hp.
  cbn [zap.core_out zap.core_enc zap.core_level].
  split; [reflexivity|]. split; [apply add_dir_In|].
  split; [reflexivity|].
  intros Hle. apply Z.leb_le in Hle. rewrite Hle, Bool.andb_false_r.
  exists (zap.mkLine
            (if EncodeLogsAsJson config then zap.NewJSONEncoder (encCfg rev)
             else zap.NewConsoleEncoder (encCfg rev)) lvl msg fields).
  cbn. repeat split.
  destruct (EncodeLogsAsJson config); reflexivity.
Qed.

Lemma Configure_with_rotation_witness :
  published_sink
    (Configure logger_go (mkConfig true true "/var/log" "app.log" 20 1 7 false 0)
               (start logger_go locked_process))
  = Some (zap.multiWriteSyncer
            [Some zap.os_Stdout;
             Some (zap.AddSync
                     (lumberjack.mkLogger "/var/log/app.log" 20 7 1 false))]).
Proof.
  exact (proj1 (Configure_with_rotation logger_go
                  (mkConfig true true "/var/log" "app.log" 20 1 7 false 0)
                  (start logger_go locked_process) zap.InfoLevel "x" []
                  eq_refl eq_refl)).
Defined.

(** *** Init on a bare file name *)

Lemma last_element_all (rl acc : list ascii) :
  forallb (fun c => negb (Go.IsPathSeparator c)) rl = true ->
  Go.last_element rl acc = (List.rev rl ++ acc)%list.
Proof.
  revert acc. induction rl as [|c r IH]; intros acc H; [reflexivity|].
  simpl in H. apply Bool.andb_true_iff in H. destruct H as [Hc Hr].
  simpl. apply Bool.negb_true_iff in Hc. rewrite Hc.
  rewrite IH by exact Hr. now rewrite <- app_assoc.
Qed.

Lemma strip_trailing_none (rl : list ascii) :
  forallb (fun c => negb (Go.IsPathSeparator c)) rl = true ->
  Go.strip_trailing rl = rl.
Proof.
  destruct rl as [|c r]; [reflexivity|]. simpl. intros H.
  apply Bool.andb_true_iff in H. destruct H as [Hc _].
  apply Bool.negb_true_iff in Hc. now rewrite Hc.
Qed.

Lemma drop_to_separator_none (rl : list ascii) :
  forallb (fun c => negb (Go.IsPathSeparator c)) rl = true ->
  Go.drop_to_separator rl = [].
Proof.
  induction rl as [|c r IH]; [reflexivity|]. simpl. intros H.
  apply Bool.andb_true_iff in H. destruct H as [Hc Hr].
  apply Bool.negb_true_iff in Hc. rewrite Hc. now apply IH.
Qed.

Lemma forallb_rev {A : Type} (f : A -> bool) (l : list A) :
  forallb f l = true -> forallb f (List.rev l) = true.
Proof.
  rewrite !forallb_forall. intros H x Hx. apply H. now apply in_rev.
Qed.

Lemma split_bare_name (file : string) :
  no_separator file = true -> file <> "" ->
  Go.filepath_Base file = file /\ Go.filepath_Dir file = ".".
Proof.
  unfold no_separator. intros Hno Hne.
  pose proof (forallb_rev _ _ Hno) as Hrev.
  split.
  - unfold Go.filepath_Base.
    apply String.eqb_neq in Hne. rewrite Hne.
    rewrite strip_trailing_none by exact Hrev.
    rewrite last_element_all by exact Hrev.
    rewrite rev_involutive, app_nil_r.
    destruct (list_ascii_of_string file) as [|c r] eqn:E.
    + apply String.eqb_neq in Hne. exfalso. apply Hne.
      rewrite <- (string_of_list_ascii_of_string file), E. reflexivity.
    + rewrite <- E. apply string_of_list_ascii_of_string.
  - unfold Go.filepath_Dir.
    rewrite drop_to_separator_none by exact Hrev. reflexivity.
Qed.

(** X13.  Given a bare file name (no separator in it), a successful Init
    stores the name itself as the file name and "." as the directory: the
    current directory comes out of the path splitting as ".", not as the
    "./" of the guard in Init. *)
Theorem Init_bare_file_name (rev : Revision) (file level : string)
    (size backup : Z) (stackstrace : bool) (w : World) (l : zap.Level) :
  no_separator file = true -> file <> "" ->
  0 <= size -> 0 <= backup -> severity level = Some l ->
  let w' := snd (Init rev file level size backup stackstrace w) in
  Filename (DefaultLoggerConfig w') = file
  /\ Directory (DefaultLoggerConfig w') = ".".
Proof.
  intros Hno Hne Hs Hb Hl. cbv zeta.
  rewrite Init_after_size_check by assumption. rewrite Hl. cbn [snd].
  rewrite Facts.Configure_config. cbn [Filename Directory Init_config].
  destruct (split_bare_name file Hno Hne) as [-> ->].
  split; reflexivity.
Qed.

Lemma Init_bare_file_name_witness :
  let w' := snd (Init part_000 "service.log" "" 5 2 false
                      (start part_000 locked_process)) in
  Filename (DefaultLoggerConfig w') = "service.log"
  /\ Directory (DefaultLoggerConfig w') = ".".
Proof.
  apply (Init_bare_file_name part_000 "service.log" "" 5 2 false
           (start part_000 locked_process) zap.ErrorLevel);
    [reflexivity | discriminate | lia | lia | reflexivity].
Defined.

(** *** When the facade faults *)

Lemma call_keeps_logger (rev : Revision) (c : Call) (w : World) :
  DefaultZapLogger w <> None ->
  DefaultZapLogger (snd (call rev c w)) <> None.
Proof.
  intros Hsome.
  destruct c; simpl;
    try (unfold Debug, Info, Warn, Error, Panic, Fatal;
         try destruct (StackStrace _);
         (replace (DefaultZapLogger (snd (on_logger _ _ _ w)))
            with (DefaultZapLogger w)
            by (symmetry; apply on_logger_gains); exact Hsome));
    try (unfold Infof, Warnf, Errorf, Panicf, Fatalf;
         (replace (DefaultZapLogger (snd (on_sugared _ _ _ w)))
            with (DefaultZapLogger w)
            by (symmetry; apply on_sugared_gains); exact Hsome)).
  - destruct (SetLogLevel_world level w) as [->|[l ->]]; exact Hsome.
  - rewrite Facts.Configure_logger. discriminate.
  - destruct (Init_world rev file level size backup stackstrace w)
      as [->|(l & config & ->)]; [exact Hsome|].
    rewrite Facts.Configure_logger. discriminate.
Qed.

(** X14.  Once a logger is published it stays published: no call of the
    package, and so no program, sets the logger variable back to nil.  In
    the later revision, where the variable starts nil, the facade is usable
    from the first Configure or successful Init on. *)
Theorem logger_stays_published (rev : Revision) (cs : list Call) (w : World) :
  DefaultZapLogger w <> None ->
  DefaultZapLogger (run rev cs w) <> None.
Proof.
  revert w. induction cs as [|c rest IH]; intros w Hsome; simpl;
    [exact Hsome|].
  pose proof (call_keeps_logger rev c w Hsome) as Hc.
  destruct (call rev c w) as [o w1]. simpl in Hc.
  destruct o; try exact Hc; apply IH; exact Hc.
Qed.

Lemma logger_stays_published_witness :
  DefaultZapLogger
    (run part_000
         [call_Info "up" []; call_SetLogLevel "nope"; call_Debug "x" [] []]
         (Configure part_000 locked_config (start part_000 locked_process)))
  <> None.
Proof.
  apply (logger_stays_published part_000
           [call_Info "up" []; call_SetLogLevel "nope"; call_Debug "x" [] []]
           (Configure part_000 locked_config (start part_000 locked_process))).
  discriminate.
Defined.

Lemma after_write_not_nil (lvl : zap.Level) (msg : string) :
  zap.after_write lvl msg <> zap.nil_dereference.
Proof.
  destruct (after_write_cases lvl msg) as [[_ ->]|[[_ ->]|(_ & _ & ->)]];
    discriminate.
Qed.

(** X15.  In every state a program can reach with a logger published, a call
    on the logger dereferences nil in exactly one situation: the severity is
    enabled and the sink holds the nil member left by a Configure whose
    directory could not be created. *)
Theorem nil_dereference_exactly_when (rev : Revision) (cs : list Call)
    (p : zap.Process) (lvl : zap.Level) (msg : string)
    (fields : list zap.Field) :
  let w := run rev cs (start rev p) in
  forall lg,
    DefaultZapLogger w = Some lg ->
    (fst (on_logger lvl msg fields w) = zap.nil_dereference
     <-> zap.core_level lg <= lvl
         /\ zap.core_out lg
            = Some (zap.multiWriteSyncer [Some zap.os_Stdout; None])).
Proof.
  cbv zeta. intros lg Hlg.
  destruct (run_invariant rev cs (start rev p) (start_invariant rev p))
    as (Hshape & _).
  destruct (Hshape lg Hlg) as [_ Hsink].
  unfold on_logger, zap.log, zap.Enabled. rewrite Hlg.
  destruct (Z.leb_spec (zap.core_level lg) lvl) as [Hle|Hgt].
  - rewrite Bool.andb_false_r.
    destruct Hsink as [E|[E|[l E]]]; rewrite E; cbn.
    + pose proof (after_write_not_nil lvl msg).
      split; [intros; contradiction | intros [_ F]; discriminate].
    + split; [intros _; split; [exact Hle | reflexivity] | reflexivity].
    + pose proof (after_write_not_nil lvl msg).
      split; [intros; contradiction | intros [_ F]; discriminate].
  - cbn [negb]. rewrite Bool.andb_true_r.
    destruct (lvl <? zap.DPanicLevel); cbn.
    + split; [discriminate | intros [F _]; lia].
    + pose proof (after_write_not_nil lvl msg).
      split; [intros; contradiction | intros [F _]; lia].
Qed.

Lemma nil_dereference_exactly_when_witness :
  fst (on_logger zap.ErrorLevel "boom" []
         (run logger_go [call_Configure locked_config]
              (start logger_go locked_process)))
  = zap.nil_dereference
  <-> zap.InfoLevel <= zap.ErrorLevel
      /\ Some (zap.multiWriteSyncer [Some zap.os_Stdout; None])
         = Some (zap.multiWriteSyncer [Some zap.os_Stdout; None]).
Proof.
  apply (nil_dereference_exactly_when logger_go [call_Configure locked_config]
           locked_process zap.ErrorLevel "boom" []
           (zap.mkLogger (zap.NewJSONEncoder (encCfg logger_go))
              (Some (zap.multiWriteSyncer [Some zap.os_Stdout; None]))
              zap.InfoLevel)).
  reflexivity.
Defined.

(** X16.  The stack flag passed to Init decides the extra field of Debug.
    After a successful Init at level debug, a Debug call writes one JSON
    record to standard output whose fields are the caller's, followed by the
    "stacktrace" field naming the caller of Debug when the flag was set, and
    the caller's alone when it was not. *)
Theorem Init_stack_flag_decides_Debug_field (rev : Revision) (file : string)
    (size backup : Z) (stackstrace : bool) (w : World) (msg : string)
    (fields : list zap.Field) (callers : list Go.Frame) :
  0 <= size -> 0 <= backup ->
  let w' := snd (Init rev file "debug" size backup stackstrace w) in
  zap.stdout (proc (snd (Debug rev msg fields callers w')))
  = (zap.stdout (proc w')
       ++ [zap.wrote
             (zap.mkLine (zap.NewJSONEncoder (encCfg rev)) zap.DebugLevel msg
                (if stackstrace
                 then fields ++ [zap.String "stacktrace" (call_site callers)]
                 else fields))])%list.
Proof.
  intros Hs Hb. cbv zeta.
  rewrite Init_after_size_check by assumption.
  change (severity "debug") with (Some zap.DebugLevel). cbn [snd].
  set (config := Init_config file size backup stackstrace).
  set (w1 := set_LogLevel zap.DebugLevel w).
  unfold Debug. rewrite Facts.Configure_config.
  cbn [StackStrace config Init_config].
  rewrite Facts.Stack_names_caller_of_Debug.
  pose proof (Facts.Configure_logger rev config w1) as Hlg.
  unfold newZapLogger in Hlg. cbn [EncodeLogsAsJson config Init_config] in Hlg.
  assert (forall fs,
            zap.stdout (proc (snd (on_logger zap.DebugLevel msg fs
                                     (Configure rev config w1))))
            = (zap.stdout (proc (Configure rev config w1))
                 ++ [zap.wrote (zap.mkLine (zap.NewJSONEncoder (encCfg rev))
                                           zap.DebugLevel msg fs)])%list) as H.
  { intros fs.
    destruct (Facts.emitted_reaches_stdout rev config w1 zap.DebugLevel msg fs)
      as (lg & Hlg' & Hout).
    { cbn. lia. }
    rewrite Hlg in Hlg'. inversion Hlg'; subst lg. exact Hout. }
  destruct stackstrace; apply H.
Qed.

Lemma Init_stack_flag_decides_Debug_field_witness :
  let w' := snd (Init logger_go "/tmp/app.log" "debug" 10 3 true
                      (start logger_go locked_process)) in
  zap.stdout
    (proc (snd (Debug logger_go "x" []
                      [Go.mkFrame "main.go" "main.run" 12] w')))
  = (zap.stdout (proc w')
       ++ [zap.wrote
             (zap.mkLine (zap.NewJSONEncoder (encCfg logger_go))
                zap.DebugLevel "x"
                [zap.String "stacktrace" "main.go:main.run:12"])])%list.
Proof.
  apply (Init_stack_flag_decides_Debug_field logger_go "/tmp/app.log" 10 3
           true (start logger_go locked_process) "x" []
           [Go.mkFrame "main.go" "main.run" 12]); lia.
Defined.

End Laws.
